(** * Axis document-verification desk: requirement rules, labels,
      data model, vision tool and chat handler

    A shallow embedding of the Python sources
    ([document_requirements.py], [models.py], [verification_tools.py],
    [verification_agent.py], [example_usage.py], [app.py]) together with
    the properties of the written specification that can be settled on
    them.

    Conventions.
    - A Python [str] is the Rocq [string] of its UTF-8 bytes, so that
      equality, dict lookup, concatenation and the replacement of one
      ASCII character by another are exact on every text.
    - The built-in methods [str.title] and [str.strip] depend on the
      Unicode character database.  The functions that call them on
      arbitrary text ([get_purpose_display_name], [on_submit]) take the
      method as a parameter.  [str_title], [str_lower] and [str_strip]
      below are the methods on ASCII text (all keys and labels of the
      program are ASCII): they are what the examples run, and a property
      stated of them is stated for ASCII text only.
    - A Python [dict] used as a lookup table is a [gmap string V].  The
      one dict whose iteration order is observable
      ([st.session_state.uploaded_files]) is an association list.
    - A raised exception is the [Raise] case of [result]; [except
      Exception] catches every exception class but the
      [BaseException]-only ones. *)

From Stdlib Require Import SpecFloat Ascii.
From stdpp Require Import gmap strings list fin_maps.

(** ** Exceptions and fallible computations *)

Inductive exn_class :=
| KeyError | IndexError | ImportError | NameError | OSError
| APIError | ValueError
| KeyboardInterrupt | SystemExit.

(** [isinstance(e, Exception)]: the last two classes derive from
    [BaseException] only. *)
Definition is_Exception (c : exn_class) : bool :=
  match c with
  | KeyboardInterrupt | SystemExit => false
  | _ => true
  end.

(** An exception value: its class and the text [str(e)] gives, up to
    the quoting of a key and the file path Python appends to an import
    error. *)
Record exn := { exn_cls : exn_class; exn_str : string }.

Inductive result (A : Type) :=
| Ok (a : A)
| Raise (e : exn).
Arguments Ok {A} a.
Arguments Raise {A} e.

(** Sequencing: an exception raised by the first statement skips the
    rest of the block. *)
#[global] Instance result_ret : MRet result := fun _ a => Ok a.
#[global] Instance result_bind : MBind result := fun _ _ k r =>
  match r with
  | Ok a => k a
  | Raise e => Raise e
  end.

Definition returns {A} (r : result A) : Prop := ∃ a, r = Ok a.

(** ** Python dict operations on [gmap string V] *)

Section Dict.
Context {V : Type}.

(** A dict display [{k1: v1, ..., kn: vn}]: items are stored left to
    right, a later item replacing an earlier one with the same key. *)
Definition dict_display (items : list (string * V)) : gmap string V :=
  foldl (fun m kv => <[kv.1 := kv.2]> m) ∅ items.

(** [k in d] *)
Definition dict_contains (d : gmap string V) (k : string) : bool :=
  match d !! k with Some _ => true | None => false end.

(** [d[k]].  The [KeyError] carries the key; [str(e)] shows it quoted. *)
Definition dict_getitem (d : gmap string V) (k : string) : result V :=
  match d !! k with
  | Some v => Ok v
  | None => Raise {| exn_cls := KeyError; exn_str := k |}
  end.

(** [d.get(k, default)] *)
Definition dict_get (d : gmap string V) (k : string) (default : V) : V :=
  match d !! k with Some v => v | None => default end.
End Dict.

(** ** models.py *)

Inductive DocumentType :=
| AADHAAR | PAN | PASSPORT | VOTER_ID | DRIVING_LICENSE | UTILITY_BILL
| BANK_STATEMENT | SALARY_SLIP | FORM_16 | ITR | PHOTOGRAPH | SIGNATURE
| CHEQUE_LEAF | GST_CERTIFICATE | INCORPORATION_CERTIFICATE | OTHER.

Definition DocumentType_value (t : DocumentType) : string :=
  match t with
  | AADHAAR => "Aadhaar" | PAN => "PAN" | PASSPORT => "Passport"
  | VOTER_ID => "VoterID" | DRIVING_LICENSE => "DrivingLicense"
  | UTILITY_BILL => "Utility" | BANK_STATEMENT => "BankStatement"
  | SALARY_SLIP => "SalarySlip" | FORM_16 => "Form16" | ITR => "ITR"
  | PHOTOGRAPH => "Photograph" | SIGNATURE => "Signature"
  | CHEQUE_LEAF => "ChequeLeaf" | GST_CERTIFICATE => "GSTCertificate"
  | INCORPORATION_CERTIFICATE => "IncorporationCertificate"
  | OTHER => "Other"
  end.

Inductive ConsistencyStatus := MATCH | PARTIAL | MISMATCH.

Definition ConsistencyStatus_value (s : ConsistencyStatus) : string :=
  match s with
  | MATCH => "MATCH" | PARTIAL => "PARTIAL" | MISMATCH => "MISMATCH"
  end.

Inductive Decision := APPROVED | REVIEW_REQUIRED | REJECTED.

Definition Decision_value (d : Decision) : string :=
  match d with
  | APPROVED => "APPROVED"
  | REVIEW_REQUIRED => "REVIEW_REQUIRED"
  | REJECTED => "REJECTED"
  end.

(** [RequiredDocument]: the document type is a free [str], not a
    [DocumentType] member, and an entry names exactly one type. *)
Record RequiredDocument := {
  type : string;
  required : bool
}.

Record ExtractedFields := {
  name : option string;
  dob : option string;
  document_number_masked : option string;
  address : option string;
  father_name : option string;
  nationality : option string;
  expiry_date : option string;
  employer_name : option string;
  salary : option spec_float;
  financial_year : option string;
  bill_date : option string
}.

Record DocumentUpload := {
  upload_id : string;
  filename : string;
  detected_type : string;
  extracted_fields : ExtractedFields;
  ocr_text_snippet : string;
  confidence : Z;
  tamper_flag : bool;
  notes : list string
}.

Record CrossChecks := {
  name_consistency : ConsistencyStatus;
  dob_consistency : ConsistencyStatus;
  face_match_score : option Z
}.

Record Audit := {
  agent_version : string;
  logs : list string;
  consent_received : bool
}.

Record VerificationResult := {
  request_id : string;
  timestamp : string;
  purpose : string;
  required_documents : list RequiredDocument;
  uploads : list DocumentUpload;
  cross_checks : CrossChecks;
  decision : Decision;
  decision_reasons : list string;
  next_actions : list string;
  audit : Audit;
  escalate_to_human : bool;
  human_escalation_reason : option string
}.

(** ** document_requirements.py *)

Definition DOCUMENT_REQUIREMENTS : gmap string (list (string * bool)) :=
  dict_display [
    ("account_opening_savings",
      [("PAN", true); ("Aadhaar", true); ("Photograph", true);
       ("Utility", false); ("BankStatement", false)]);
    ("account_opening_salary",
      [("PAN", true); ("Aadhaar", true); ("Photograph", true);
       ("SalarySlip", true); ("Utility", false); ("BankStatement", false)]);
    ("address_update",
      [("Aadhaar", false); ("PAN", false); ("Utility", false);
       ("BankStatement", false)]);
    ("loan_application",
      [("PAN", true); ("Aadhaar", true); ("SalarySlip", false);
       ("Form16", false); ("ITR", false)]);
    ("credit_card_kyc",
      [("PAN", true); ("Aadhaar", true); ("SalarySlip", false);
       ("Form16", false)]);
    ("business_account",
      [("PAN", true); ("GSTCertificate", true);
       ("IncorporationCertificate", true); ("Aadhaar", true)])
  ].

Definition get_required_documents (purpose : string)
  : result (list RequiredDocument) :=
  if negb (dict_contains DOCUMENT_REQUIREMENTS purpose) then
    Ok [ {| type := "PAN"; required := true |};
         {| type := "Aadhaar"; required := true |} ]
  else
    entries ← dict_getitem DOCUMENT_REQUIREMENTS purpose;
    Ok (map (fun '(doc_type, required) =>
               {| type := doc_type; required := required |}) entries).

(** The six purposes, as [example_usage.py] lists them. *)
Definition purposes : list string :=
  [ "account_opening_savings"; "account_opening_salary"; "address_update";
    "loan_application"; "credit_card_kyc"; "business_account" ].

(** *** Built-in string methods used by the label function *)

Definition is_ascii_upper (c : ascii) : bool :=
  let n := nat_of_ascii c in (65 <=? n)%nat && (n <=? 90)%nat.

Definition is_ascii_lower (c : ascii) : bool :=
  let n := nat_of_ascii c in (97 <=? n)%nat && (n <=? 122)%nat.

Definition is_cased (c : ascii) : bool := is_ascii_upper c || is_ascii_lower c.

Definition char_lower (c : ascii) : ascii :=
  if is_ascii_upper c then ascii_of_nat (nat_of_ascii c + 32) else c.

Definition char_title (c : ascii) : ascii :=
  if is_ascii_lower c then ascii_of_nat (nat_of_ascii c - 32) else c.

(** [s.replace(old, new)] for one-character [old] and [new]. *)
Fixpoint str_replace (old new : ascii) (s : string) : string :=
  match s with
  | EmptyString => EmptyString
  | String c s' =>
      String (if Ascii.eqb c old then new else c) (str_replace old new s')
  end.

(** [s.title()] on ASCII text: a character that follows a cased
    character is lower-cased, any other character is title-cased. *)
Fixpoint title_from (previous_is_cased : bool) (s : string) : string :=
  match s with
  | EmptyString => EmptyString
  | String c s' =>
      String (if previous_is_cased then char_lower c else char_title c)
             (title_from (is_cased c) s')
  end.

Definition str_title (s : string) : string := title_from false s.

(** [s.lower()] on ASCII text *)
Fixpoint str_lower (s : string) : string :=
  match s with
  | EmptyString => EmptyString
  | String c s' => String (char_lower c) (str_lower s')
  end.

(** [title] is [str.title]. *)
Definition get_purpose_display_name (title : string → string)
    (purpose : string) : string :=
  let mapping : gmap string string := dict_display [
    ("account_opening_savings", "Open Savings Account");
    ("account_opening_salary", "Open Salary Account");
    ("address_update", "Update Address");
    ("loan_application", "Loan Application");
    ("credit_card_kyc", "Credit Card KYC");
    ("business_account", "Open Business Account")
  ] in
  dict_get mapping purpose (title (str_replace "_"%char " "%char purpose)).

(** The label as the specification words it: a fixed phrase for each
    known purpose, and for any other purpose the underscores replaced by
    spaces and the result title-cased. *)
Definition fixed_phrase (purpose : string) : option string :=
  if String.eqb purpose "account_opening_savings" then Some "Open Savings Account"
  else if String.eqb purpose "account_opening_salary" then Some "Open Salary Account"
  else if String.eqb purpose "address_update" then Some "Update Address"
  else if String.eqb purpose "loan_application" then Some "Loan Application"
  else if String.eqb purpose "credit_card_kyc" then Some "Credit Card KYC"
  else if String.eqb purpose "business_account" then Some "Open Business Account"
  else None.

Definition purpose_label_spec (title : string → string)
    (purpose : string) : string :=
  match fixed_phrase purpose with
  | Some phrase => phrase
  | None => title (str_replace "_"%char " "%char purpose)
  end.

(** ** Reading a requirement list *)

(** The document types of the mandatory entries, in list order. *)
Definition mandatory_types (slots : list RequiredDocument) : list string :=
  type <$> filter (fun d => required d = true) slots.

(** The list [get_required_documents] builds for
    [account_opening_savings], entry by entry. *)
Definition savings_entries : list RequiredDocument :=
  [ {| type := "PAN"; required := true |};
    {| type := "Aadhaar"; required := true |};
    {| type := "Photograph"; required := true |};
    {| type := "Utility"; required := false |};
    {| type := "BankStatement"; required := false |} ].

(** ** Values handed to a caller *)

(** Python is dynamically typed: what a function returns, or a chat
    message carries, is a value of some class.  The universe holds the
    classes the claims speak of. *)
Inductive pyval :=
| VNone
| VStr (s : string)
| VDocumentUpload (d : DocumentUpload)
| VVerificationResult (r : VerificationResult).

(** Text, or [None]. *)
Definition is_text (v : pyval) : Prop := v = VNone ∨ ∃ s, v = VStr s.

(** [str(v)] as an f-string renders it, for the values that occur. *)
Definition py_str (v : option string) : string :=
  match v with
  | Some s => s
  | None => "None"
  end.

(** Truth value of an [Optional[str]]: [None] and the empty string are
    false. *)
Definition truthy (v : option string) : bool :=
  match v with
  | Some s => negb (String.eqb s "")
  | None => false
  end.

Definition of_opt_str (v : option string) : pyval :=
  match v with
  | Some s => VStr s
  | None => VNone
  end.

Definition nl : string := String (ascii_of_nat 10) EmptyString.

(** [l[i]] on a list *)
Definition list_getitem {A} (l : list A) (i : nat) : result A :=
  match l !! i with
  | Some a => Ok a
  | None => Raise {| exn_cls := IndexError;
                     exn_str := "list index out of range" |}
  end.

(** [try: body  except Exception as e: handler(e)] *)
Definition try_except_Exception {A} (body : result A)
    (handler : exn → result A) : result A :=
  match body with
  | Ok a => Ok a
  | Raise e => if is_Exception (exn_cls e) then handler e else Raise e
  end.

(** ** verification_tools.py *)

Section VisionTool.
(** The outside world of the tool: the OpenAI client library, the file
    system, [pathlib] and [base64].  The two prompt texts are constants
    of the source, taken as given. *)
Variable Client : Type.
Variable Agent : Type.
Variable OpenAI : result Client.
Variable open_rb_read : string → result (list Byte.byte).
Variable b64encode_decode : list Byte.byte → string.
Variable Path_suffix : string → string.
(** [client.chat.completions.create(model, messages, max_tokens)] for a
    single user message made of a text part and an image URL part; the
    answer is the message content of each returned choice. *)
Variable chat_completions_create :
  Client → string → string → string → Z → result (list (option string)).
Variable question_prompt : string → string.
Variable default_prompt : string.

(** The module-level [_client] is threaded as state. *)
Definition get_openai_client (_client : option Client)
  : result Client * option Client :=
  match _client with
  | None =>
      match OpenAI with
      | Ok c => (Ok c, Some c)
      | Raise e => (Raise e, None)
      end
  | Some c => (Ok c, Some c)
  end.

Definition encode_image_to_base64 (file_path : string) : result string :=
  data ← open_rb_read file_path;
  Ok (b64encode_decode data).

Definition get_image_mime_type (file_path : string) : string :=
  let ext := str_lower (Path_suffix file_path) in
  let mime_types : gmap string string := dict_display [
    (".jpg", "image/jpeg");
    (".jpeg", "image/jpeg");
    (".png", "image/png");
    (".gif", "image/gif");
    (".webp", "image/webp")
  ] in
  dict_get mime_types ext "image/jpeg".

(** The body of the [try] block. *)
Definition analyze_body (_client : option Client) (file_path : string)
    (filename question : option string)
  : result pyval * option Client :=
  let '(got, _client') := get_openai_client _client in
  (client ← got;
   let mime_type := get_image_mime_type file_path in
   base64_image ← encode_image_to_base64 file_path;
   let prompt :=
     match question with
     | Some q => if truthy question then question_prompt q else default_prompt
     | None => default_prompt
     end in
   choices ← chat_completions_create client "gpt-4o" prompt
               ("data:" +:+ mime_type +:+ ";base64," +:+ base64_image) 2000;
   result ← list_getitem choices 0;
   match filename with
   | Some fn =>
       if truthy filename
       then Ok (VStr ("Analysis of " +:+ fn +:+ ":" +:+ nl +:+ nl
                      +:+ py_str result))
       else Ok (of_opt_str result)
   | None => Ok (of_opt_str result)
   end,
   _client').

Definition error_text (e : exn) : string :=
  "Error analyzing document: " +:+ exn_str e
  +:+ ". Please ensure the file path is correct and the image is accessible.".

Definition analyze_document_image (_client : option Client) (agent : Agent)
    (file_path : string) (filename question : option string)
  : result pyval * option Client :=
  let '(body, _client') := analyze_body _client file_path filename question in
  (try_except_Exception body (fun e => Ok (VStr (error_text e))), _client').

(** The failed record the specification describes for an upload whose
    classification failed. *)
Definition is_failed_record (v : pyval) : Prop :=
  ∃ d cause,
    v = VDocumentUpload d ∧ detected_type d = "Other" ∧ confidence d = 0%Z
    ∧ tamper_flag d = false
    ∧ notes d = ["classification failed: " +:+ cause].
End VisionTool.

(** ** app.py: the submit handler *)

(** [c.isspace()] on ASCII: tab to carriage return, the four separator
    controls and the space. *)
Definition is_whitespace (c : ascii) : bool :=
  let n := nat_of_ascii c in
  ((9 <=? n)%nat && (n <=? 13)%nat) || ((28 <=? n)%nat && (n <=? 32)%nat).

Fixpoint str_lstrip (s : string) : string :=
  match s with
  | EmptyString => EmptyString
  | String c s' => if is_whitespace c then str_lstrip s' else s
  end.

Definition str_rstrip (s : string) : string :=
  String.rev (str_lstrip (String.rev s)).

(** [s.strip()] on ASCII text *)
Definition str_strip (s : string) : string := str_rstrip (str_lstrip s).

(** A chat message [{"role": ..., "content": ...}]. *)
Record Message := { role : string; content : pyval }.

(** The part of [st.session_state] the handler reads and writes.
    [uploaded_files] keeps the insertion order of the dict. *)
Record SessionState := {
  messages : list Message;
  uploaded_files : list (string * string);
  pending_upload_ack : bool
}.

(** What [agent.run] returns: [content_attr] is [None] when the object
    has no attribute [content], otherwise the attribute's value;
    [as_str] is [str(response)]. *)
Record Response := {
  content_attr : option (option string);
  as_str : string
}.

(** Calls that draw on the page. *)
Inductive ui_call :=
| st_error (msg : string)
| st_exception (e : exn).

(** How a run of the handler ends: it falls through, [st.rerun()]
    restarts the script, or an exception leaves the handler. *)
Inductive flow :=
| FallsThrough
| Rerun
| Propagates (e : exn).

Section SubmitHandler.
(** [str.strip], [os.path.exists] and [agent.run]. *)
Variable strip : string → string.
Variable os_path_exists : string → bool.
Variable agent_run : string → result Response.

Definition file_info_text (files : list (string * string)) : string :=
  foldl (fun file_info '(filename, file_path) =>
           if os_path_exists file_path then
             file_info +:+ "File: " +:+ filename +:+ nl
               +:+ "Path: " +:+ file_path +:+ nl +:+ nl
           else
             file_info +:+ "File: " +:+ filename +:+ " (path not found: "
               +:+ file_path +:+ ")" +:+ nl +:+ nl)
        (nl +:+ nl +:+ "[UPLOADED FILES AVAILABLE FOR ANALYSIS]" +:+ nl)
        files
  +:+ "You can use the analyze_document_image tool with these file paths to verify documents.".

Definition new_uploads_instructions : string :=
  nl +:+ nl +:+ "[NEW UPLOADS]" +:+ nl
  +:+ "Please confirm you have received and reviewed the newly attached files listed below "
  +:+ "before addressing the customer's request." +:+ nl.

Definition build_user_message (st : SessionState) (prompt : string) : string :=
  match uploaded_files st with
  | [] => prompt
  | files =>
      let instructions :=
        if pending_upload_ack st then new_uploads_instructions else "" in
      prompt +:+ instructions +:+ file_info_text files
  end.

Definition assistant_response_of (response : Response) : pyval :=
  match content_attr response with
  | Some c => of_opt_str c
  | None => VStr (as_str response)
  end.

Definition append_message (st : SessionState) (m : Message) : SessionState :=
  {| messages := messages st ++ [m];
     uploaded_files := uploaded_files st;
     pending_upload_ack := pending_upload_ack st |}.

(** The [try] block up to [st.rerun()]: the session state is written
    only after [agent.run] has returned. *)
Definition try_block (st : SessionState) (prompt : string)
  : result SessionState :=
  let user_message := build_user_message st prompt in
  response ← agent_run user_message;
  let assistant_response := assistant_response_of response in
  let st1 := append_message st
               {| role := "assistant"; content := assistant_response |} in
  Ok {| messages := messages st1;
        uploaded_files := uploaded_files st1;
        pending_upload_ack := false |}.

Definition error_msg_of (e : exn) : string :=
  "Sorry, I encountered an error: " +:+ exn_str e.

(** [if submitted and prompt.strip(): ...] *)
Definition on_submit (st : SessionState) (submitted : bool) (prompt : string)
  : SessionState * list ui_call * flow :=
  if submitted && negb (String.eqb (strip prompt) "") then
    let st0 := append_message st {| role := "user"; content := VStr prompt |} in
    match try_block st0 prompt with
    | Ok st1 => (st1, [], Rerun)
    | Raise e =>
        if is_Exception (exn_cls e) then
          let error_msg := error_msg_of e in
          (append_message st0
             {| role := "assistant"; content := VStr error_msg |},
           [st_error error_msg; st_exception e],
           FallsThrough)
        else (st0, [], Propagates e)
    end
  else (st, [], FallsThrough).

(** What the customer is shown for the request: the content of the
    message last written to the thread. *)
Definition delivered (st : SessionState) : option pyval :=
  content <$> last (messages st).
End SubmitHandler.

(** ** Module loading and example_usage.py *)

(** A top-level import statement: [from m import n1, ..., nk], or
    [import m], which binds the module's own name. *)
Inductive import_stmt :=
| FromImport (m : string) (names : list string)
| ImportModule (m : string).

(** A source file, as far as name binding goes: its import statements,
    then the names its top-level [def], [class] and assignment
    statements bind, in file order. *)
Record module_source := {
  imports : list import_stmt;
  definitions : list string
}.

Definition models_py : module_source :=
  {| imports := [ FromImport "datetime" ["datetime"];
                  FromImport "typing" ["Dict"; "List"; "Optional"];
                  FromImport "pydantic" ["BaseModel"; "Field"];
                  FromImport "enum" ["Enum"] ];
     definitions := [ "DocumentType"; "ConsistencyStatus"; "Decision";
                      "RequiredDocument"; "ExtractedFields";
                      "DocumentUpload"; "CrossChecks"; "Audit";
                      "VerificationResult" ] |}.

Definition document_requirements_py : module_source :=
  {| imports := [ FromImport "typing" ["Dict"; "List"; "Tuple"];
                  FromImport "models" ["RequiredDocument"] ];
     definitions := [ "DOCUMENT_REQUIREMENTS"; "get_required_documents";
                      "get_purpose_display_name" ] |}.

Definition verification_tools_py : module_source :=
  {| imports := [ ImportModule "base64";
                  FromImport "pathlib" ["Path"];
                  FromImport "typing" ["Optional"];
                  FromImport "openai" ["OpenAI"];
                  FromImport "agno.tools" ["tool"];
                  FromImport "agno.agent" ["Agent"] ];
     definitions := [ "_client"; "get_openai_client";
                      "encode_image_to_base64"; "get_image_mime_type";
                      "analyze_document_image" ] |}.

Definition verification_agent_py : module_source :=
  {| imports := [ FromImport "agno.agent" ["Agent"];
                  FromImport "agno.models.openai" ["OpenAIChat"];
                  FromImport "verification_tools" ["analyze_document_image"] ];
     definitions := [ "get_verification_prompt"; "create_agent" ] |}.

Definition example_usage_py : module_source :=
  {| imports := [ FromImport "pathlib" ["Path"];
                  FromImport "verification_agent" ["DocumentVerificationAgent"];
                  FromImport "document_requirements"
                    ["get_required_documents"; "get_purpose_display_name"] ];
     definitions := [ "main" ] |}.

(** The importable modules of the repository, by module name.  The
    script [app.py] is not one of them: it is run, not imported, and
    running it does more than bind names. *)
Definition SOURCES : gmap string module_source :=
  dict_display [
    ("models", models_py);
    ("document_requirements", document_requirements_py);
    ("verification_tools", verification_tools_py);
    ("verification_agent", verification_agent_py);
    ("example_usage", example_usage_py)
  ].

(** The module an import statement loads, and the names it binds. *)
Definition import_target (i : import_stmt) : string :=
  match i with
  | FromImport m _ => m
  | ImportModule m => m
  end.

Definition import_binds (i : import_stmt) : list string :=
  match i with
  | FromImport _ names => names
  | ImportModule m => [m]
  end.

(** The names the top level of a source file binds when every import
    succeeds. *)
Definition top_level_names (src : module_source) : list string :=
  mjoin (import_binds <$> imports src) ++ definitions src.

(** The two import failures.  Python appends the path of the module's
    file, in parentheses, to the second text, and raises the first as
    [ModuleNotFoundError], a subclass of [ImportError]. *)
Definition module_not_found (m : string) : exn :=
  {| exn_cls := ImportError; exn_str := "No module named '" +:+ m +:+ "'" |}.

Definition cannot_import_name (n m : string) : exn :=
  {| exn_cls := ImportError;
     exn_str := "cannot import name '" +:+ n +:+ "' from '" +:+ m +:+ "'" |}.

Definition name_not_defined (n : string) : exn :=
  {| exn_cls := NameError; exn_str := "name '" +:+ n +:+ "' is not defined" |}.

(** The first of [names] that the namespace [ns] does not bind. *)
Definition first_unbound (ns names : list string) : option string :=
  find (fun n => negb (bool_decide (n ∈ ns))) names.

Section Loading.
(** The modules outside the repository (standard library and
    installed packages): [installed m] is the namespace of [m], or
    [None] when there is no such module. *)
Variable installed : string → option (list string).

(** One import statement, given how modules load; [globals] are the
    names bound so far.  [None] is an exhausted recursion budget. *)
Definition exec_import (load : string → option (result (list string)))
    (globals : list string) (i : import_stmt)
  : option (result (list string)) :=
  match i with
  | ImportModule m =>
      match load m with
      | None => None
      | Some (Raise e) => Some (Raise e)
      | Some (Ok _) => Some (Ok (globals ++ [m]))
      end
  | FromImport m names =>
      match load m with
      | None => None
      | Some (Raise e) => Some (Raise e)
      | Some (Ok ns) =>
          match first_unbound ns names with
          | Some n => Some (Raise (cannot_import_name n m))
          | None => Some (Ok (globals ++ names))
          end
      end
  end.

Fixpoint exec_imports (load : string → option (result (list string)))
    (globals : list string) (stmts : list import_stmt)
  : option (result (list string)) :=
  match stmts with
  | [] => Some (Ok globals)
  | i :: stmts' =>
      match exec_import load globals i with
      | None => None
      | Some (Raise e) => Some (Raise e)
      | Some (Ok globals') => exec_imports load globals' stmts'
      end
  end.

(** Executing module [m]: the names its top level binds.  The import
    graph of the sources is four modules deep, so [fuel] bounds the
    nesting of imports. *)
Fixpoint load_module (fuel : nat) (m : string)
  : option (result (list string)) :=
  match fuel with
  | O => None
  | S fuel' =>
      match SOURCES !! m with
      | Some src =>
          match exec_imports (load_module fuel') [] (imports src) with
          | None => None
          | Some (Raise e) => Some (Raise e)
          | Some (Ok globals) => Some (Ok (globals ++ definitions src))
          end
      | None =>
          match installed m with
          | Some ns => Some (Ok ns)
          | None => Some (Raise (module_not_found m))
          end
      end
  end.

(** Reading a global name. *)
Definition load_global (globals : list string) (n : string) : result unit :=
  if bool_decide (n ∈ globals) then Ok () else Raise (name_not_defined n).

(** What calling [DocumentVerificationAgent(...)] would do if the name
    were bound. *)
Variable call_DocumentVerificationAgent : result unit.

(** [main()], run with the module's globals; printing is left out. *)
Definition main (globals : list string) : result unit :=
  _ ← load_global globals "DocumentVerificationAgent";
  _ ← call_DocumentVerificationAgent;
  _ ← load_global globals "get_required_documents";
  required_docs ← get_required_documents "account_opening_savings";
  _ ← load_global globals "get_purpose_display_name";
  let label := get_purpose_display_name str_title "account_opening_savings" in
  _ ← mapM (fun purpose =>
              _ ← load_global globals "get_required_documents";
              get_required_documents purpose) purposes;
  Ok ().

(** Invoking [example_usage.main]: the module is executed first (as a
    script or through an import), then [main] is called. *)
Definition invoke_main (fuel : nat) : option (result unit) :=
  match load_module fuel "example_usage" with
  | None => None
  | Some (Raise e) => Some (Raise e)
  | Some (Ok globals) => Some (main globals)
  end.
End Loading.

(** Every name a source file of the repository defines. *)
Definition defined_names : list string :=
  mjoin (definitions <$>
           [ models_py; document_requirements_py; verification_tools_py;
             verification_agent_py; example_usage_py ]).

(** Outcomes of loading a module. *)
Definition fails_with_ImportError {A} (r : option (result A)) : Prop :=
  ∃ e, r = Some (Raise e) ∧ exn_cls e = ImportError.

Definition loads_or_fails (r : option (result (list string))) : Prop :=
  (∃ ns, r = Some (Ok ns)) ∨ fails_with_ImportError r.

Definition binds_or_fails (ns : list string)
    (r : option (result (list string))) : Prop :=
  r = Some (Ok ns) ∨ fails_with_ImportError r.

(** ** Example runs *)

(** The tool in a world where the client is created and the image file
    cannot be opened. *)
Definition no_such_file : exn :=
  {| exn_cls := OSError;
     exn_str := "[Errno 2] No such file or directory: 'missing.png'" |}.

Definition body_file_missing :=
  analyze_body unit (Ok ()) (fun _ => Raise no_such_file) (fun _ => "")
    (fun _ => ".png") (fun _ _ _ _ _ => Ok [Some "A PAN card."])
    (fun q => q) "Analyze this document image comprehensively.".

Definition tool_file_missing :=
  analyze_document_image unit unit (Ok ()) (fun _ => Raise no_such_file)
    (fun _ => "") (fun _ => ".png")
    (fun _ _ _ _ _ => Ok [Some "A PAN card."])
    (fun q => q) "Analyze this document image comprehensively.".

(** The handler in a world where the model cannot be reached. *)
Definition connection_error : exn :=
  {| exn_cls := APIError; exn_str := "Connection error." |}.

Definition agent_unreachable (user_message : string) : result Response :=
  Raise connection_error.

Definition empty_session : SessionState :=
  {| messages := []; uploaded_files := []; pending_upload_ack := false |}.

(** An installation in which every module outside the repository exists
    and binds each name the sources import from it. *)
Definition all_installed (m : string) : option (list string) :=
  Some [ "Path"; "Optional"; "Dict"; "List"; "Tuple"; "OpenAI"; "tool";
         "Agent"; "OpenAIChat"; "BaseModel"; "Field"; "Enum"; "datetime" ].


From stdpp Require pretty.

(** ** Enumeration members and lookup by value *)

Definition DocumentType_members : list DocumentType :=
  [ AADHAAR; PAN; PASSPORT; VOTER_ID; DRIVING_LICENSE; UTILITY_BILL;
    BANK_STATEMENT; SALARY_SLIP; FORM_16; ITR; PHOTOGRAPH; SIGNATURE;
    CHEQUE_LEAF; GST_CERTIFICATE; INCORPORATION_CERTIFICATE; OTHER ].

Definition ConsistencyStatus_members : list ConsistencyStatus :=
  [ MATCH; PARTIAL; MISMATCH ].

Definition Decision_members : list Decision :=
  [ APPROVED; REVIEW_REQUIRED; REJECTED ].

(** [EnumClass(value)]: the first member, in declaration order, whose
    value is [v]; [ValueError] when there is none. *)
Definition enum_of_value {E} (members : list E) (value_of : E → string)
    (class_name : string) (v : string) : result E :=
  match find (fun m => String.eqb (value_of m) v) members with
  | Some m => Ok m
  | None =>
      Raise {| exn_cls := ValueError;
               exn_str := "'" +:+ v +:+ "' is not a valid " +:+ class_name |}
  end.

Definition DocumentType_of_value : string → result DocumentType :=
  enum_of_value DocumentType_members DocumentType_value "DocumentType".

Definition ConsistencyStatus_of_value : string → result ConsistencyStatus :=
  enum_of_value ConsistencyStatus_members ConsistencyStatus_value
    "ConsistencyStatus".

Definition Decision_of_value : string → result Decision :=
  enum_of_value Decision_members Decision_value "Decision".

(** The fallback list of [get_required_documents]. *)
Definition default_kyc_documents : list RequiredDocument :=
  [ {| type := "PAN"; required := true |};
    {| type := "Aadhaar"; required := true |} ].

(** ** Shape of a title-cased string *)

Definition chars (s : string) : list ascii := String.list_ascii_of_string s.

(** ASCII text: every character code is below 128. *)
Definition is_ascii_text (s : string) : Prop :=
  Forall (fun c => nat_of_ascii c < 128) (chars s).

(** No upper-case letter follows a cased character and no lower-case
    letter follows anything else (or starts the string). *)
Fixpoint title_shaped (previous_is_cased : bool) (s : string) : bool :=
  match s with
  | EmptyString => true
  | String c s' =>
      (if previous_is_cased then negb (is_ascii_upper c)
       else negb (is_ascii_lower c))
      && title_shaped (is_cased c) s'
  end.

(** ** Further example runs *)

(** The tool in a world where the client is created, the file holds two
    bytes and the API answers with the choices [choices]. *)
Definition tool_answering (choices : list (option string)) :=
  analyze_document_image unit unit (Ok ())
    (fun _ => Ok [Byte.x68; Byte.x69]) (fun _ => "aGk=") (fun _ => ".PNG")
    (fun _ _ _ _ _ => Ok choices)
    (fun q => "Analyze this document image and answer: " +:+ q)
    "Analyze this document image comprehensively.".

(** Two APIs: one that answers every request, one that refuses any model
    but gpt-4o and any token limit but 2000. *)
Definition api_any_model (c : unit) (model prompt url : string)
    (max_tokens : Z) : result (list (option string)) :=
  Ok [Some "A PAN card."].

Definition api_gpt4o_only (c : unit) (model prompt url : string)
    (max_tokens : Z) : result (list (option string)) :=
  if String.eqb model "gpt-4o" && (max_tokens =? 2000)%Z
  then Ok [Some "A PAN card."]
  else Raise {| exn_cls := APIError; exn_str := "model not available" |}.

(** ** app.py: attaching files *)

(** [st.session_state.uploaded_files] is a dict whose iteration order the
    handler observes: an association list with distinct keys, in
    insertion order. *)
Definition odict_contains {V} (d : list (string * V)) (k : string) : bool :=
  bool_decide (k ∈ d.*1).

Definition odict_get {V} (d : list (string * V)) (k : string) : option V :=
  snd <$> find (fun kv => String.eqb (fst kv) k) d.

(** [d[k] = v]: a key already there keeps its place, a new key goes
    last. *)
Fixpoint odict_setitem {V} (k : string) (v : V) (d : list (string * V))
  : list (string * V) :=
  match d with
  | [] => [(k, v)]
  | (k', v') :: d' =>
      if String.eqb k' k then (k, v) :: d' else (k', v') :: odict_setitem k v d'
  end.

(** [s.endswith("/")] *)
Fixpoint ends_with_slash (s : string) : bool :=
  match s with
  | EmptyString => false
  | String c EmptyString => Ascii.eqb c "/"
  | String _ s' => ends_with_slash s'
  end.

(** [os.path.join(a, b)] on a POSIX system. *)
Definition os_path_join (a b : string) : string :=
  if String.prefix "/" b then b
  else if String.eqb a "" || ends_with_slash a then a +:+ b
  else a +:+ "/" +:+ b.

(** What the Streamlit uploader hands over for one file. *)
Module UploadedFile.
Record t := { name : string; getbuffer : list Byte.byte }.
End UploadedFile.

(** Notices drawn in the attachment column. *)
Inductive notice :=
| st_success (msg : string)
| st_info (msg : string).

Section Attachments.
(** [open(path, "wb")] followed by [write]: the file system may refuse. *)
Variable open_wb_write : string → list Byte.byte → result unit.

Definition save_uploaded_file (uploaded_file : UploadedFile.t)
    (temp_dir : string) : result string :=
  let file_path := os_path_join temp_dir (UploadedFile.name uploaded_file) in
  _ ← open_wb_write file_path (UploadedFile.getbuffer uploaded_file);
  Ok file_path.

(** The [for] loop over the uploaded files: the dict and [new_files] as
    they stand when the loop ends or an exception leaves it. *)
Fixpoint attach_loop (temp_dir : string) (files : list UploadedFile.t)
    (uploaded : list (string * string)) (new_files : list string)
  : list (string * string) * list string * result unit :=
  match files with
  | [] => (uploaded, new_files, Ok ())
  | uploaded_file :: rest =>
      match save_uploaded_file uploaded_file temp_dir with
      | Raise e => (uploaded, new_files, Raise e)
      | Ok file_path =>
          let new_files' :=
            if odict_contains uploaded (UploadedFile.name uploaded_file)
            then new_files
            else new_files ++ [UploadedFile.name uploaded_file] in
          attach_loop temp_dir rest
            (odict_setitem (UploadedFile.name uploaded_file) file_path uploaded)
            new_files'
      end
  end.

(** [if uploaded_files: ...] of the attachment column. *)
Definition attach_files (temp_dir : string) (st : SessionState)
    (files : list UploadedFile.t)
  : SessionState * list notice * result unit :=
  match files with
  | [] => (st, [], Ok ())
  | _ =>
      let '(uploaded, new_files, r) :=
        attach_loop temp_dir files (uploaded_files st) [] in
      match r with
      | Raise e =>
          ({| messages := messages st; uploaded_files := uploaded;
              pending_upload_ack := pending_upload_ack st |}, [], Raise e)
      | Ok _ =>
          match new_files with
          | [] =>
              ({| messages := messages st; uploaded_files := uploaded;
                  pending_upload_ack := pending_upload_ack st |},
               [ st_info ("📎 " +:+ pretty.pretty (length files)
                          +:+ " file(s) already attached") ],
               Ok ())
          | _ =>
              ({| messages := messages st; uploaded_files := uploaded;
                  pending_upload_ack := true |},
               [ st_success ("✅ " +:+ pretty.pretty (length new_files)
                             +:+ " new file(s) attached: "
                             +:+ String.concat ", " new_files) ],
               Ok ())
          end
      end
  end.
End Attachments.

(** The names of a batch that are not among [keys], each once, in upload
    order: what the loop collects in [new_files]. *)
Fixpoint fresh_names (keys names : list string) : list string :=
  match names with
  | [] => []
  | n :: names' =>
      if bool_decide (n ∈ keys) then fresh_names keys names'
      else n :: fresh_names (keys ++ [n]) names'
  end.

(** Every file of the batch can be written to its place under
    [temp_dir]. *)
Definition all_saved (open_wb_write : string → list Byte.byte → result unit)
    (temp_dir : string) (files : list UploadedFile.t) : Prop :=
  Forall (fun f => open_wb_write
                     (os_path_join temp_dir (UploadedFile.name f))
                     (UploadedFile.getbuffer f) = Ok ()) files.

(** ** Shape of the message thread *)

(** The thread is a sequence of exchanges, each a customer message
    followed by the assistant's reply. *)
Fixpoint paired (thread : list Message) : Prop :=
  match thread with
  | [] => True
  | u :: rest =>
      match rest with
      | [] => False
      | a :: rest' => role u = "user" ∧ role a = "assistant" ∧ paired rest'
      end
  end.

(** [sub in s] *)
Definition str_contains (sub s : string) : Prop :=
  ∃ before after, s = before +:+ sub +:+ after.

(** The lines the message carries for one attachment, and for all of
    them in dict order. *)
Definition file_entry (os_path_exists : string → bool)
    (filename file_path : string) : string :=
  if os_path_exists file_path
  then "File: " +:+ filename +:+ nl +:+ "Path: " +:+ file_path +:+ nl +:+ nl
  else "File: " +:+ filename +:+ " (path not found: " +:+ file_path +:+ ")"
       +:+ nl +:+ nl.

Fixpoint file_entries (os_path_exists : string → bool)
    (files : list (string * string)) : string :=
  match files with
  | [] => ""
  | (filename, file_path) :: files' =>
      file_entry os_path_exists filename file_path
      +:+ file_entries os_path_exists files'
  end.

(** ** What the sources import from outside the repository *)

Definition import_names (i : import_stmt) : list string :=
  match i with
  | FromImport _ names => names
  | ImportModule _ => []
  end.

(** The modules outside the repository that the sources other than
    [example_usage] and [app] import, each with the names taken from
    it. *)
Definition outside_imports : list (string * list string) :=
  [ ("datetime", ["datetime"]);
    ("typing", ["Dict"; "List"; "Optional"; "Tuple"]);
    ("pydantic", ["BaseModel"; "Field"]);
    ("enum", ["Enum"]);
    ("base64", []);
    ("pathlib", ["Path"]);
    ("openai", ["OpenAI"]);
    ("agno.tools", ["tool"]);
    ("agno.agent", ["Agent"]);
    ("agno.models.openai", ["OpenAIChat"]) ].

(** An installation in which each of these modules exists and binds the
    names taken from it. *)
Definition provides (installed : string → option (list string))
    (entry : string * list string) : Prop :=
  ∃ ns, installed (fst entry) = Some ns ∧ snd entry ⊆ ns.

Definition environment_complete (installed : string → option (list string))
  : Prop :=
  Forall (provides installed) outside_imports.

(** The importable modules of the repository. *)
Definition source_modules : list string :=
  [ "models"; "document_requirements"; "verification_tools";
    "verification_agent"; "example_usage" ].

(** ** Example sessions *)

(** A file system that accepts every write, and one that is full when
    [b.png] is written. *)
Definition disk_accepts (path : string) (data : list Byte.byte)
  : result unit := Ok ().


Definition pan_png : UploadedFile.t :=
  {| UploadedFile.name := "pan.png";
     UploadedFile.getbuffer := [Byte.x68; Byte.x69] |}.

Definition b_png : UploadedFile.t :=
  {| UploadedFile.name := "b.png"; UploadedFile.getbuffer := [Byte.x68] |}.

(** An agent that answers, and a session with one attachment waiting to
    be acknowledged. *)
Definition agent_answers (user_message : string) : result Response :=
  Ok {| content_attr := Some (Some "Your PAN card looks valid.");
        as_str := "RunOutput" |}.

(** A prompt of white space only: a space, a tab and the file
    separator U+001C. *)
Definition blank_prompt : string :=
  String " " (String (ascii_of_nat 9) (String (ascii_of_nat 28) "")).

Definition session_with_upload : SessionState :=
  {| messages := [];
     uploaded_files := [("pan.png", "/tmp/session/pan.png")];
     pending_upload_ack := true |}.
(** * Properties *)

(** ** Requirement rules *)

Lemma DOCUMENT_REQUIREMENTS_unknown (purpose : string) :
  purpose ∉ purposes → DOCUMENT_REQUIREMENTS !! purpose = None.
Proof.
  intros Hnot. unfold DOCUMENT_REQUIREMENTS, dict_display. simpl.
  unfold purposes in Hnot.
  rewrite !lookup_insert_ne; first apply lookup_empty.
  all: intros <-; apply Hnot; set_solver.
Qed.

Lemma dict_getitem_contains {V} (d : gmap string V) (k : string) :
  dict_contains d k = true → returns (dict_getitem d k).
Proof.
  unfold dict_contains, dict_getitem, returns.
  destruct (d !! k) as [v|]; [eauto | discriminate].
Qed.

Lemma get_required_documents_returns (purpose : string) :
  returns (get_required_documents purpose).
Proof.
  unfold get_required_documents.
  destruct (dict_contains DOCUMENT_REQUIREMENTS purpose) eqn:Hin; simpl.
  - destruct (dict_getitem_contains _ _ Hin) as [entries ->]. simpl.
    eexists; reflexivity.
  - eexists; reflexivity.
Qed.

(** C2. A purpose that is not one of the six known keys gets exactly the
    two-entry fallback, mandatory PAN then mandatory Aadhaar, and
    [get_required_documents] raises for no input string at all. *)
Theorem get_required_documents_unknown_purpose (purpose : string) :
  purpose ∉ purposes →
  (get_required_documents purpose
     = Ok [ {| type := "PAN"; required := true |};
            {| type := "Aadhaar"; required := true |} ])
  ∧ (∀ any : string, returns (get_required_documents any)).
Proof.
  intros Hnot. split.
  - unfold get_required_documents, dict_contains.
    rewrite (DOCUMENT_REQUIREMENTS_unknown _ Hnot). reflexivity.
  - apply get_required_documents_returns.
Qed.

Lemma get_required_documents_unknown_purpose_witness :
  ("home_loan" ∉ purposes)
  ∧ get_required_documents "home_loan"
      = Ok [ {| type := "PAN"; required := true |};
             {| type := "Aadhaar"; required := true |} ].
Proof.
  assert (H : "home_loan" ∉ purposes)
    by (apply (bool_decide_unpack _); vm_compute; reflexivity).
  split; [exact H |].
  exact (proj1 (get_required_documents_unknown_purpose "home_loan" H)).
Defined.

(** C6. For each of the six known purposes the list returned is not
    empty and no document type occurs in two mandatory entries. *)
Theorem get_required_documents_known_purpose (purpose : string) :
  purpose ∈ purposes →
  ∃ slots, get_required_documents purpose = Ok slots
    ∧ slots ≠ [] ∧ NoDup (mandatory_types slots).
Proof.
  unfold purposes. intros Hin.
  repeat (apply elem_of_cons in Hin as [-> | Hin]);
    [.. | by apply elem_of_nil in Hin].
  all: eexists; split; [vm_compute; reflexivity | split; [discriminate |]].
  all: apply (bool_decide_unpack _); vm_compute; reflexivity.
Qed.

Lemma get_required_documents_known_purpose_witness :
  ("business_account" ∈ purposes)
  ∧ ∃ slots, get_required_documents "business_account" = Ok slots
      ∧ slots ≠ [] ∧ NoDup (mandatory_types slots).
Proof.
  assert (H : "business_account" ∈ purposes)
    by (apply (bool_decide_unpack _); vm_compute; reflexivity).
  split; [exact H |].
  exact (get_required_documents_known_purpose "business_account" H).
Defined.

(** C9. For [address_update] the list has exactly four entries, Aadhaar,
    PAN, Utility and BankStatement in this order, each with
    [required=False]; no document type is mandatory. *)
Theorem get_required_documents_address_update :
  get_required_documents "address_update"
    = Ok [ {| type := "Aadhaar"; required := false |};
           {| type := "PAN"; required := false |};
           {| type := "Utility"; required := false |};
           {| type := "BankStatement"; required := false |} ]
  ∧ (∃ slots, get_required_documents "address_update" = Ok slots
       ∧ length slots = 4
       ∧ Forall (fun d => required d = false) slots
       ∧ mandatory_types slots = []).
Proof.
  split; [vm_compute; reflexivity |].
  eexists. split; [vm_compute; reflexivity |].
  split; [reflexivity |].
  split; [| vm_compute; reflexivity].
  repeat constructor.
Qed.

(** C1, as the specification states it, fails.  The list for
    [account_opening_savings] does not hold the address-proof requirement
    as one mandatory slot with several alternatives: Utility and
    BankStatement are the types of two different entries, the fourth and
    the fifth, and no entry with [required=True] names either of them. *)
Lemma savings_address_proof_is_no_or_group :
  get_required_documents "account_opening_savings" = Ok savings_entries
  ∧ savings_entries !! 3 = Some {| type := "Utility"; required := false |}
  ∧ savings_entries !! 4
    = Some {| type := "BankStatement"; required := false |}
  ∧ ¬ (∃ d, d ∈ savings_entries ∧ required d = true
            ∧ (type d = "Utility" ∨ type d = "BankStatement")).
Proof.
  split; [vm_compute; reflexivity |].
  split; [reflexivity |]. split; [reflexivity |].
  intros (d & Hin & Hreq & Htype). unfold savings_entries in Hin.
  repeat (apply elem_of_cons in Hin as [-> | Hin]);
    [.. | by apply elem_of_nil in Hin]; simpl in *;
    first [ discriminate Hreq | destruct Htype as [H | H]; discriminate H ].
Qed.

(** C1, amended.  The list for [account_opening_savings] has five
    entries, each naming one document type: PAN, Aadhaar, Photograph,
    Utility and BankStatement in this order, the first three with
    [required=True].  Utility and BankStatement are two separate
    entries, the fourth and the fifth; no entry groups them. *)
Theorem savings_address_proof_separate_entries :
  ∃ slots, get_required_documents "account_opening_savings" = Ok slots
    ∧ type <$> slots
      = ["PAN"; "Aadhaar"; "Photograph"; "Utility"; "BankStatement"]
    ∧ take 3 slots = [ {| type := "PAN"; required := true |};
                       {| type := "Aadhaar"; required := true |};
                       {| type := "Photograph"; required := true |} ]
    ∧ (type <$> slots) !! 3 = Some "Utility"
    ∧ (type <$> slots) !! 4 = Some "BankStatement".
Proof.
  eexists. split; [vm_compute; reflexivity |].
  repeat split.
Qed.

(** ** Purpose labels *)

Lemma get_purpose_display_name_refines (title : string → string)
    (purpose : string) :
  get_purpose_display_name title purpose = purpose_label_spec title purpose.
Proof.
  unfold purpose_label_spec, fixed_phrase.
  repeat match goal with
  | |- context [String.eqb purpose ?k] =>
      destruct (String.eqb_spec purpose k) as [-> | ?];
        [vm_compute; reflexivity |]
  end.
  unfold get_purpose_display_name, dict_get, dict_display. simpl.
  rewrite !lookup_insert_ne by congruence.
  rewrite lookup_empty. reflexivity.
Qed.

Lemma fixed_phrase_unknown (purpose : string) :
  purpose ∉ purposes → fixed_phrase purpose = None.
Proof.
  intros Hnot. unfold fixed_phrase, purposes in *.
  repeat match goal with
  | |- context [String.eqb purpose ?k] =>
      destruct (String.eqb_spec purpose k) as [-> | ?];
        [exfalso; apply Hnot; set_solver |]
  end.
  reflexivity.
Qed.

Lemma str_replace_length (old new : ascii) (s : string) :
  String.length (str_replace old new s) = String.length s.
Proof. induction s as [| c s IH]; simpl; congruence. Qed.

Lemma title_from_length (b : bool) (s : string) :
  String.length (title_from b s) = String.length s.
Proof. revert b. induction s as [| c s IH]; intros b; simpl; congruence. Qed.

(** C7. Whatever text the purpose is, the label function returns: each
    of the six known purposes has its fixed phrase, and any other
    purpose is labelled by replacing the underscores with spaces and
    title-casing the result with [str.title]. *)
Theorem get_purpose_display_name_total (title : string → string)
    (purpose : string) :
  purpose ∉ purposes →
  get_purpose_display_name title purpose
    = title (str_replace "_"%char " "%char purpose)
  ∧ get_purpose_display_name title <$> purposes
    = [ "Open Savings Account"; "Open Salary Account"; "Update Address";
        "Loan Application"; "Credit Card KYC"; "Open Business Account" ]
  ∧ (∀ any : string,
       get_purpose_display_name title any = purpose_label_spec title any).
Proof.
  intros Hnot. split; [| split].
  - rewrite get_purpose_display_name_refines. unfold purpose_label_spec.
    rewrite (fixed_phrase_unknown _ Hnot). reflexivity.
  - unfold purposes. cbn [fmap list_fmap].
    rewrite !get_purpose_display_name_refines. reflexivity.
  - apply get_purpose_display_name_refines.
Qed.

Lemma get_purpose_display_name_total_witness :
  ("hOME_lOAN_x9y" ∉ purposes)
  ∧ get_purpose_display_name str_title "hOME_lOAN_x9y" = "Home Loan X9Y".
Proof.
  assert (H : "hOME_lOAN_x9y" ∉ purposes)
    by (apply (bool_decide_unpack _); vm_compute; reflexivity).
  split; [exact H |].
  exact (proj1 (get_purpose_display_name_total str_title "hOME_lOAN_x9y" H)).
Defined.

(** ** The vision tool *)

Lemma try_except_Exception_caught {A} (body : result A)
    (handler : exn → result A) (e : exn) :
  body = Raise e → is_Exception (exn_cls e) = true →
  try_except_Exception body handler = handler e.
Proof. intros -> He. simpl. rewrite He. reflexivity. Qed.

Lemma try_except_Exception_escapes {A} (body : result A)
    (handler : exn → result A) (e : exn) :
  (∀ e0, returns (handler e0)) →
  try_except_Exception body handler = Raise e →
  is_Exception (exn_cls e) = false.
Proof.
  intros Hh. destruct body as [a | e0]; simpl; [discriminate |].
  destruct (is_Exception (exn_cls e0)) eqn:He0.
  - destruct (Hh e0) as [a ->]. discriminate.
  - intros [= <-]. exact He0.
Qed.

Lemma of_opt_str_text (o : option string) : is_text (of_opt_str o).
Proof. destruct o; [right | left]; simpl; eauto. Qed.

Section VisionToolFacts.
Context (Client Agent : Type) (OpenAI : result Client)
  (open_rb_read : string → result (list Byte.byte))
  (b64encode_decode : list Byte.byte → string)
  (Path_suffix : string → string)
  (chat_completions_create :
     Client → string → string → string → Z → result (list (option string)))
  (question_prompt : string → string) (default_prompt : string).

Local Abbreviation body :=
  (analyze_body Client OpenAI open_rb_read b64encode_decode Path_suffix
     chat_completions_create question_prompt default_prompt).
Local Abbreviation tool :=
  (analyze_document_image Client Agent OpenAI open_rb_read b64encode_decode
     Path_suffix chat_completions_create question_prompt default_prompt).

Lemma analyze_document_image_unfold _client agent file_path filename question :
  tool _client agent file_path filename question
  = (try_except_Exception (body _client file_path filename question).1
       (fun e => Ok (VStr (error_text e))),
     (body _client file_path filename question).2).
Proof.
  unfold analyze_document_image.
  destruct (body _client file_path filename question) as [r c]. reflexivity.
Qed.

(** An unreadable file fails the body with the exception of [open]. *)
Lemma analyze_body_unreadable_file _client file_path filename question c e :
  (get_openai_client Client OpenAI _client).1 = Ok c →
  open_rb_read file_path = Raise e →
  (body _client file_path filename question).1 = Raise e.
Proof.
  intros Hc Hread. unfold analyze_body.
  destruct (get_openai_client Client OpenAI _client) as [got c']. simpl in *.
  subst got. simpl. unfold encode_image_to_base64. rewrite Hread. reflexivity.
Qed.

(** A client that cannot be created fails the body likewise. *)
Lemma analyze_body_no_client file_path filename question e :
  OpenAI = Raise e →
  (body None file_path filename question).1 = Raise e.
Proof. intros He. unfold analyze_body, get_openai_client. rewrite He. reflexivity. Qed.

(** The body hands back text or [None], never a model instance. *)
Lemma analyze_body_value _client file_path filename question v :
  (body _client file_path filename question).1 = Ok v → is_text v.
Proof.
  unfold analyze_body.
  destruct (get_openai_client Client OpenAI _client) as [[c | e] c']; simpl;
    [| discriminate].
  destruct (encode_image_to_base64 open_rb_read b64encode_decode file_path)
    as [img | e]; simpl; [| discriminate].
  destruct (chat_completions_create c _ _ _ _) as [choices | e]; simpl;
    [| discriminate].
  destruct (list_getitem choices 0) as [r | e]; simpl; [| discriminate].
  destruct filename as [fn |]; [destruct (truthy (Some fn)) |];
    intros [= <-]; first [ apply of_opt_str_text | right; eauto ].
Qed.

(** C4, amended.  When the body of the tool fails with an exception of
    class [Exception], the tool returns the text "Error analyzing
    document: <cause>. Please ensure the file path is correct and the
    image is accessible."; no exception of class [Exception] leaves the
    tool on any input; and what the tool returns is text or [None],
    never a failed document record. *)
Theorem analyze_document_image_failure_text
    _client agent file_path filename question e :
  (body _client file_path filename question).1 = Raise e →
  is_Exception (exn_cls e) = true →
  (tool _client agent file_path filename question).1
    = Ok (VStr ("Error analyzing document: " +:+ exn_str e
                +:+ ". Please ensure the file path is correct and the image is accessible."))
  ∧ (∀ c a p f q e',
       (tool c a p f q).1 = Raise e' → is_Exception (exn_cls e') = false)
  ∧ (∀ c a p f q v,
       (tool c a p f q).1 = Ok v → is_text v ∧ ¬ is_failed_record v).
Proof.
  intros Hbody He. split; [| split].
  - rewrite analyze_document_image_unfold. simpl.
    rewrite (try_except_Exception_caught _ _ _ Hbody He). reflexivity.
  - intros c a p f q e'. rewrite analyze_document_image_unfold. simpl.
    apply try_except_Exception_escapes. intros e0. eexists; reflexivity.
  - intros c a p f q v. rewrite analyze_document_image_unfold. simpl.
    intros Hv.
    assert (Htext : is_text v).
    { destruct (body c p f q).1 as [w | e0] eqn:Hb; simpl in Hv.
      - injection Hv as <-. exact (analyze_body_value _ _ _ _ _ Hb).
      - destruct (is_Exception (exn_cls e0)); [| discriminate].
        injection Hv as <-. right. eauto. }
    split; [exact Htext |].
    intros (d & cause & -> & _).
    destruct Htext as [? | [s ?]]; discriminate.
Qed.
End VisionToolFacts.

Lemma analyze_document_image_failure_text_witness :
  (body_file_missing None "missing.png" (Some "missing.png") None).1
    = Raise no_such_file
  ∧ is_Exception (exn_cls no_such_file) = true
  ∧ (tool_file_missing None () "missing.png" (Some "missing.png") None).1
    = Ok (VStr "Error analyzing document: [Errno 2] No such file or directory: 'missing.png'. Please ensure the file path is correct and the image is accessible.").
Proof.
  split; [reflexivity |]. split; [reflexivity |].
  exact (proj1 (analyze_document_image_failure_text
                  unit unit (Ok ()) (fun _ => Raise no_such_file)
                  (fun _ => "") (fun _ => ".png")
                  (fun _ _ _ _ _ => Ok [Some "A PAN card."]) (fun q => q)
                  "Analyze this document image comprehensively."
                  None () "missing.png" (Some "missing.png") None
                  no_such_file eq_refl eq_refl)).
Defined.

(** C4, as the specification states it, fails.  With an image file that
    cannot be opened the tool returns an error text; the value is not a
    failed document record (type Other, confidence 0, no tamper flag,
    note "classification failed: <cause>"). *)
Lemma analyze_document_image_failure_is_no_record :
  (tool_file_missing None () "missing.png" (Some "missing.png") None).1
    = Ok (VStr "Error analyzing document: [Errno 2] No such file or directory: 'missing.png'. Please ensure the file path is correct and the image is accessible.")
  ∧ ¬ (∃ v,
         (tool_file_missing None () "missing.png" (Some "missing.png") None).1
           = Ok v
         ∧ is_failed_record v).
Proof.
  split; [reflexivity |].
  intros (v & Hv & d & cause & -> & _). discriminate Hv.
Qed.

(** ** The submit handler *)

Section SubmitHandlerFacts.
Context (strip : string → string) (os_path_exists : string → bool)
        (agent_run : string → result Response).

Local Abbreviation handler := (on_submit strip os_path_exists agent_run).
Local Abbreviation user_message := (build_user_message os_path_exists).

Lemma build_user_message_append st m prompt :
  user_message (append_message st m) prompt = user_message st prompt.
Proof. reflexivity. Qed.

Lemma assistant_response_text (response : Response) :
  is_text (assistant_response_of response).
Proof.
  unfold assistant_response_of.
  destruct (content_attr response) as [c |];
    [apply of_opt_str_text | right; eauto].
Qed.

Lemma on_submit_agent_fails st prompt e :
  strip prompt ≠ "" →
  agent_run (user_message st prompt) = Raise e →
  is_Exception (exn_cls e) = true →
  handler st true prompt
  = ({| messages := messages st
          ++ [ {| role := "user"; content := VStr prompt |};
               {| role := "assistant";
                  content := VStr ("Sorry, I encountered an error: "
                                   +:+ exn_str e) |} ];
        uploaded_files := uploaded_files st;
        pending_upload_ack := pending_upload_ack st |},
     [ st_error ("Sorry, I encountered an error: " +:+ exn_str e);
       st_exception e ],
     FallsThrough).
Proof.
  intros Hp Hrun He. unfold on_submit.
  apply String.eqb_neq in Hp. rewrite Hp. simpl.
  unfold try_block. rewrite build_user_message_append, Hrun. simpl.
  rewrite He. unfold append_message, error_msg_of. simpl.
  rewrite <- app_assoc. reflexivity.
Qed.

(** Every message the handler writes carries text or [None]. *)
Lemma on_submit_writes_text st submitted prompt :
  Forall (fun m => is_text (content m)) (messages st) →
  Forall (fun m => is_text (content m))
         (messages (handler st submitted prompt).1.1).
Proof.
  intros Hst. unfold on_submit.
  destruct (submitted && negb (String.eqb (strip prompt) ""));
    [| exact Hst].
  assert (H0 : Forall (fun m => is_text (content m))
                 (messages st
                    ++ [{| role := "user"; content := VStr prompt |}])).
  { apply Forall_app. split; [exact Hst |].
    constructor; [right; eexists; reflexivity | constructor]. }
  unfold try_block.
  destruct (agent_run _) as [response | e]; simpl.
  - apply Forall_app. split; [exact H0 |].
    constructor; [apply assistant_response_text | constructor].
  - destruct (is_Exception (exn_cls e)); simpl; [| exact H0].
    apply Forall_app. split; [exact H0 |].
    constructor; [right; eexists; reflexivity | constructor].
Qed.

Lemma on_submit_escapes st submitted prompt e :
  (handler st submitted prompt).2 = Propagates e →
  is_Exception (exn_cls e) = false.
Proof.
  unfold on_submit.
  destruct (submitted && negb (String.eqb (strip prompt) ""));
    [| discriminate].
  destruct (try_block _ _ _ _) as [st1 | e0]; [discriminate |].
  destruct (is_Exception (exn_cls e0)) eqn:He0; [discriminate |].
  intros [= <-]. exact He0.
Qed.

(** C5, amended.  When the agent call of a submitted request whose
    prompt, stripped by [str.strip], is not empty
    fails with an exception of class [Exception], the handler ends
    normally and the thread gains the customer's message followed by
    the assistant message "Sorry, I encountered an error: <cause>".
    On every run no exception of class [Exception] leaves the handler,
    and every message it writes carries text (or [None]), never a
    [VerificationResult]. *)
Theorem on_submit_failure_reply st prompt e :
  strip prompt ≠ "" →
  agent_run (user_message st prompt) = Raise e →
  is_Exception (exn_cls e) = true →
  (handler st true prompt).2 = FallsThrough
  ∧ messages (handler st true prompt).1.1
    = messages st
        ++ [ {| role := "user"; content := VStr prompt |};
             {| role := "assistant";
                content := VStr ("Sorry, I encountered an error: "
                                 +:+ exn_str e) |} ]
  ∧ (∀ st' submitted prompt' e',
       (handler st' submitted prompt').2 = Propagates e' →
       is_Exception (exn_cls e') = false)
  ∧ (∀ st' submitted prompt',
       Forall (fun m => is_text (content m)) (messages st') →
       Forall (fun m => is_text (content m))
              (messages (handler st' submitted prompt').1.1)).
Proof.
  intros Hp Hrun He.
  rewrite (on_submit_agent_fails _ _ _ Hp Hrun He). simpl.
  split; [reflexivity |]. split; [reflexivity |].
  split; [apply on_submit_escapes | apply on_submit_writes_text].
Qed.
End SubmitHandlerFacts.

Lemma on_submit_failure_reply_witness :
  str_strip "Please verify my PAN card" ≠ ""
  ∧ agent_unreachable
      (build_user_message (fun _ => true) empty_session
         "Please verify my PAN card") = Raise connection_error
  ∧ is_Exception (exn_cls connection_error) = true
  ∧ messages (on_submit str_strip (fun _ => true) agent_unreachable
                empty_session true "Please verify my PAN card").1.1
    = [ {| role := "user"; content := VStr "Please verify my PAN card" |};
        {| role := "assistant";
           content := VStr "Sorry, I encountered an error: Connection error." |} ].
Proof.
  assert (Hp : str_strip "Please verify my PAN card" ≠ "")
    by (vm_compute; discriminate).
  split; [exact Hp |]. split; [reflexivity |]. split; [reflexivity |].
  exact (proj1 (proj2 (on_submit_failure_reply str_strip (fun _ => true)
                         agent_unreachable empty_session
                         "Please verify my PAN card" connection_error
                         Hp eq_refl eq_refl))).
Defined.

(** C5, as the specification states it, fails.  When the model cannot be
    reached, what the customer receives for the request is the text
    "Sorry, I encountered an error: Connection error.", not a
    [VerificationResult]. *)
Lemma on_submit_failure_is_no_result :
  delivered (on_submit str_strip (fun _ => true) agent_unreachable
               empty_session true "Please verify my PAN card").1.1
    = Some (VStr "Sorry, I encountered an error: Connection error.")
  ∧ ¬ (∃ r : VerificationResult,
         delivered (on_submit str_strip (fun _ => true) agent_unreachable
                      empty_session true "Please verify my PAN card").1.1
           = Some (VVerificationResult r)).
Proof.
  split; [reflexivity |].
  intros (r & Hr). discriminate Hr.
Qed.

(** ** Loading example_usage.py *)

Lemma fails_with_ImportError_intro {A} (e : exn) :
  exn_cls e = ImportError → fails_with_ImportError (A := A) (Some (Raise e)).
Proof. intros He. exists e. split; [reflexivity | exact He]. Qed.

Lemma binds_loads (ns : list string) (r : option (result (list string))) :
  binds_or_fails ns r → loads_or_fails r.
Proof. intros [-> | H]; [left; eauto | right; exact H]. Qed.

Ltac each_import :=
  repeat first [ apply Forall_nil_2 | apply Forall_cons_2 ].

Section LoadingFacts.
Context (installed : string → option (list string)).

Local Abbreviation load := (load_module installed).

Lemma exec_import_outcome (ld : string → option (result (list string)))
    (globals : list string) (i : import_stmt) :
  loads_or_fails (ld (import_target i)) →
  binds_or_fails (globals ++ import_binds i) (exec_import ld globals i).
Proof.
  intros [[ns Hns] | (e & He & Hcls)]; destruct i as [m names | m];
    simpl in *; rewrite ?Hns, ?He.
  - destruct (first_unbound ns names) as [n |].
    + right. apply fails_with_ImportError_intro. reflexivity.
    + left. reflexivity.
  - left. reflexivity.
  - right. apply fails_with_ImportError_intro, Hcls.
  - right. apply fails_with_ImportError_intro, Hcls.
Qed.

Lemma exec_imports_outcome (ld : string → option (result (list string)))
    (stmts : list import_stmt) (globals : list string) :
  Forall (fun i => loads_or_fails (ld (import_target i))) stmts →
  binds_or_fails (globals ++ mjoin (import_binds <$> stmts))
                 (exec_imports ld globals stmts).
Proof.
  intros Hall. revert globals.
  induction Hall as [| i stmts Hi _ IH]; intros globals; simpl.
  - left. rewrite app_nil_r. reflexivity.
  - destruct (exec_import_outcome ld globals i Hi) as [-> | (e & -> & He)].
    + rewrite app_assoc. apply IH.
    + right. apply fails_with_ImportError_intro, He.
Qed.

(** A module outside the repository loads, or there is no such
    module. *)
Lemma load_module_outside fuel m :
  SOURCES !! m = None → loads_or_fails (load (S fuel) m).
Proof.
  intros Hm. simpl. rewrite Hm.
  destruct (installed m) as [ns |]; [left; eauto |].
  right. apply fails_with_ImportError_intro. reflexivity.
Qed.

(** A source file whose imports load binds its top-level names. *)
Lemma load_module_source fuel m src :
  SOURCES !! m = Some src →
  Forall (fun i => loads_or_fails (load fuel (import_target i)))
         (imports src) →
  binds_or_fails (top_level_names src) (load (S fuel) m).
Proof.
  intros Hm Hall. simpl. rewrite Hm.
  destruct (exec_imports_outcome (load fuel) (imports src) [] Hall)
    as [-> | (e & -> & He)].
  - left. reflexivity.
  - right. apply fails_with_ImportError_intro, He.
Qed.

Lemma load_verification_tools fuel :
  binds_or_fails (top_level_names verification_tools_py)
                 (load (S (S fuel)) "verification_tools").
Proof.
  apply load_module_source; [reflexivity |].
  unfold verification_tools_py; cbn [imports import_target].
  each_import; apply load_module_outside; reflexivity.
Qed.

Lemma load_verification_agent fuel :
  binds_or_fails (top_level_names verification_agent_py)
                 (load (S (S (S fuel))) "verification_agent").
Proof.
  apply load_module_source; [reflexivity |].
  unfold verification_agent_py; cbn [imports import_target].
  each_import.
  - apply load_module_outside; reflexivity.
  - apply load_module_outside; reflexivity.
  - eapply binds_loads, load_verification_tools.
Qed.

Lemma load_module_unfold fuel m :
  load (S fuel) m
  = match SOURCES !! m with
    | Some src =>
        match exec_imports (load fuel) [] (imports src) with
        | None => None
        | Some (Raise e) => Some (Raise e)
        | Some (Ok globals) => Some (Ok (globals ++ definitions src))
        end
    | None =>
        match installed m with
        | Some ns => Some (Ok ns)
        | None => Some (Raise (module_not_found m))
        end
    end.
Proof. reflexivity. Qed.

(** Executing [example_usage] stops at its second import. *)
Lemma load_example_usage fuel :
  fails_with_ImportError (load (S (S (S (S fuel)))) "example_usage").
Proof.
  rewrite load_module_unfold.
  replace (SOURCES !! "example_usage") with (Some example_usage_py)
    by reflexivity.
  unfold example_usage_py; cbn [imports definitions exec_imports].
  destruct (exec_import_outcome (load (S (S (S fuel)))) []
              (FromImport "pathlib" ["Path"])) as [-> | (e & -> & He)].
  { apply load_module_outside. reflexivity. }
  2: { apply fails_with_ImportError_intro, He. }
  cbn [exec_import].
  destruct (load_verification_agent fuel) as [-> | (e & -> & He)].
  - apply fails_with_ImportError_intro. reflexivity.
  - apply fails_with_ImportError_intro, He.
Qed.
End LoadingFacts.

(** C10. Invoking [example_usage.main] fails whatever is installed: the
    module's import of [DocumentVerificationAgent] from
    [verification_agent] raises, since no source file defines that name
    and [verification_agent] binds [create_agent] but not it; [main]
    itself, given the names of [verification_agent], stops at its first
    statement on the unbound name. *)
Theorem example_usage_main_fails
    (installed : string → option (list string)) (call : result ())
    (fuel : nat) :
  4 ≤ fuel →
  fails_with_ImportError (invoke_main installed call fuel)
  ∧ ("DocumentVerificationAgent" ∉ defined_names)
  ∧ ("DocumentVerificationAgent" ∉ top_level_names verification_agent_py)
  ∧ ("create_agent" ∈ top_level_names verification_agent_py)
  ∧ main call (top_level_names verification_agent_py)
    = Raise (name_not_defined "DocumentVerificationAgent").
Proof.
  intros Hfuel.
  destruct fuel as [| [| [| [| fuel]]]]; try lia.
  split.
  - unfold invoke_main.
    destruct (load_example_usage installed fuel) as (e & -> & He).
    apply fails_with_ImportError_intro, He.
  - split; [apply (bool_decide_unpack _); vm_compute; reflexivity |].
    split; [apply (bool_decide_unpack _); vm_compute; reflexivity |].
    split; [apply (bool_decide_unpack _); vm_compute; reflexivity |].
    reflexivity.
Qed.

Lemma example_usage_main_fails_witness :
  4 ≤ 4 ∧ fails_with_ImportError (invoke_main all_installed (Ok ()) 4).
Proof.
  split; [lia |].
  exact (proj1 (example_usage_main_fails all_installed (Ok ()) 4 (le_n 4))).
Defined.

(** With everything installed the failure is the import error on the
    missing name. *)
Example invoke_main_all_installed :
  invoke_main all_installed (Ok ()) 4
  = Some (Raise (cannot_import_name "DocumentVerificationAgent"
                                    "verification_agent")).
Proof. vm_compute. reflexivity. Qed.

(** * Further properties of the sources *)

(** ** Requirement lists, for every purpose string *)

Lemma get_required_documents_fallback (purpose : string) :
  purpose ∉ purposes →
  get_required_documents purpose = Ok default_kyc_documents.
Proof.
  intros Hnot. unfold get_required_documents, dict_contains.
  rewrite (DOCUMENT_REQUIREMENTS_unknown _ Hnot). reflexivity.
Qed.

(** A property of all seven lists holds of the list of any purpose. *)
Lemma get_required_documents_every (P : list RequiredDocument → Prop) :
  Forall (fun p => ∃ slots, get_required_documents p = Ok slots ∧ P slots)
         purposes →
  P default_kyc_documents →
  ∀ purpose, ∃ slots, get_required_documents purpose = Ok slots ∧ P slots.
Proof.
  intros Hknown Hdefault purpose.
  destruct (decide (purpose ∈ purposes)) as [Hin | Hnot].
  - rewrite Forall_forall in Hknown. exact (Hknown purpose Hin).
  - exists default_kyc_documents. split; [| exact Hdefault].
    exact (get_required_documents_fallback _ Hnot).
Qed.

Ltac each_purpose :=
  unfold purposes;
  repeat first
    [ apply Forall_nil_2
    | apply Forall_cons_2; [eexists; split; [vm_compute; reflexivity |] |] ].

Ltac by_evaluation := apply (bool_decide_unpack _); vm_compute; reflexivity.

(** X1. Whatever the purpose string, the list returned has at least two
    entries and names both PAN and Aadhaar. *)
Theorem get_required_documents_has_PAN_and_Aadhaar (purpose : string) :
  ∃ slots, get_required_documents purpose = Ok slots
    ∧ 2 ≤ length slots
    ∧ "PAN" ∈ type <$> slots
    ∧ "Aadhaar" ∈ type <$> slots.
Proof.
  revert purpose.
  apply (get_required_documents_every
           (fun slots => 2 ≤ length slots ∧ "PAN" ∈ type <$> slots
                         ∧ "Aadhaar" ∈ type <$> slots)).
  - each_purpose; (split; [simpl; lia | split; by_evaluation]).
  - split; [simpl; lia | split; by_evaluation].
Qed.

(** X2. Whatever the purpose string, no document type occurs twice in
    the list returned, and every type in it is the value of a
    [DocumentType] member other than [OTHER]. *)
Theorem get_required_documents_types_valid (purpose : string) :
  ∃ slots, get_required_documents purpose = Ok slots
    ∧ NoDup (type <$> slots)
    ∧ Forall (fun d => ∃ t, DocumentType_of_value (type d) = Ok t ∧ t ≠ OTHER)
             slots.
Proof.
  revert purpose.
  apply (get_required_documents_every
           (fun slots => NoDup (type <$> slots)
              ∧ Forall (fun d => ∃ t, DocumentType_of_value (type d) = Ok t
                                      ∧ t ≠ OTHER) slots)).
  - each_purpose;
      (split; [by_evaluation |];
       repeat first [ apply Forall_nil_2 | apply Forall_cons_2 ];
       eexists; (split; [vm_compute; reflexivity | discriminate])).
  - split; [by_evaluation |].
    repeat first [ apply Forall_nil_2 | apply Forall_cons_2 ];
      eexists; (split; [vm_compute; reflexivity | discriminate]).
Qed.

(** X3. For every purpose string other than [address_update], PAN and
    Aadhaar are both mandatory. *)
Theorem get_required_documents_mandatory_identity (purpose : string) :
  purpose ≠ "address_update" →
  ∃ slots, get_required_documents purpose = Ok slots
    ∧ "PAN" ∈ mandatory_types slots
    ∧ "Aadhaar" ∈ mandatory_types slots.
Proof.
  intros Hne.
  destruct (decide (purpose ∈ purposes)) as [Hin | Hnot].
  - unfold purposes in Hin.
    repeat (apply elem_of_cons in Hin as [-> | Hin]);
      [.. | by apply elem_of_nil in Hin];
      try congruence;
      (eexists; split; [vm_compute; reflexivity | split; by_evaluation]).
  - exists default_kyc_documents.
    split; [exact (get_required_documents_fallback _ Hnot) |].
    split; by_evaluation.
Qed.

Lemma get_required_documents_mandatory_identity_witness :
  "loan_application" ≠ "address_update"
  ∧ ∃ slots, get_required_documents "loan_application" = Ok slots
      ∧ "PAN" ∈ mandatory_types slots
      ∧ "Aadhaar" ∈ mandatory_types slots.
Proof.
  assert (H : "loan_application" ≠ "address_update") by discriminate.
  split; [exact H |].
  exact (get_required_documents_mandatory_identity "loan_application" H).
Defined.

(** ** Enumerations *)

Lemma enum_of_value_Ok {E} (members : list E) (value_of : E → string)
    (class_name v : string) (m : E) :
  enum_of_value members value_of class_name v = Ok m → value_of m = v.
Proof.
  unfold enum_of_value.
  destruct (find _ members) as [m' |] eqn:Hfind; [| discriminate].
  intros [= <-]. apply find_some in Hfind as [_ Heq].
  apply String.eqb_eq, Heq.
Qed.

(** X4. The values of the three enumerations are pairwise distinct, so
    looking a member up by its value gives that member back, and a
    lookup that succeeds returns a member with the value asked for; a
    string that is no value is refused with [ValueError]. *)
Theorem enum_value_round_trip :
  (∀ t, DocumentType_of_value (DocumentType_value t) = Ok t)
  ∧ (∀ s, ConsistencyStatus_of_value (ConsistencyStatus_value s) = Ok s)
  ∧ (∀ d, Decision_of_value (Decision_value d) = Ok d)
  ∧ (∀ v t, DocumentType_of_value v = Ok t → DocumentType_value t = v)
  ∧ (∀ v s, ConsistencyStatus_of_value v = Ok s
            → ConsistencyStatus_value s = v)
  ∧ (∀ v d, Decision_of_value v = Ok d → Decision_value d = v)
  ∧ (∀ v, v ∉ Decision_value <$> Decision_members →
          ∃ e, Decision_of_value v = Raise e ∧ exn_cls e = ValueError).
Proof.
  split; [intros []; reflexivity |].
  split; [intros []; reflexivity |].
  split; [intros []; reflexivity |].
  split; [intros v t; apply enum_of_value_Ok |].
  split; [intros v t; apply enum_of_value_Ok |].
  split; [intros v t; apply enum_of_value_Ok |].
  intros v Hv. unfold Decision_of_value, enum_of_value.
  destruct (find _ Decision_members) as [d |] eqn:Hfind.
  - apply find_some in Hfind as [_ Heq]. apply String.eqb_eq in Heq.
    exfalso. apply Hv. rewrite <- Heq.
    destruct d; by_evaluation.
  - eexists. split; reflexivity.
Qed.

(** ** Labels of unknown purposes *)

Lemma char_title_underscore (c : ascii) :
  char_title c = "_"%char → c = "_"%char.
Proof. destruct c as [[] [] [] [] [] [] [] []]; vm_compute; congruence. Qed.

Lemma char_lower_underscore (c : ascii) :
  char_lower c = "_"%char → c = "_"%char.
Proof. destruct c as [[] [] [] [] [] [] [] []]; vm_compute; congruence. Qed.

Lemma is_cased_char_title (c : ascii) : is_cased (char_title c) = is_cased c.
Proof. destruct c as [[] [] [] [] [] [] [] []]; reflexivity. Qed.

Lemma is_cased_char_lower (c : ascii) : is_cased (char_lower c) = is_cased c.
Proof. destruct c as [[] [] [] [] [] [] [] []]; reflexivity. Qed.

Lemma char_lower_not_upper (c : ascii) : is_ascii_upper (char_lower c) = false.
Proof. destruct c as [[] [] [] [] [] [] [] []]; reflexivity. Qed.

Lemma char_title_not_lower (c : ascii) : is_ascii_lower (char_title c) = false.
Proof. destruct c as [[] [] [] [] [] [] [] []]; reflexivity. Qed.

Lemma char_lower_idemp (c : ascii) : char_lower (char_lower c) = char_lower c.
Proof. destruct c as [[] [] [] [] [] [] [] []]; reflexivity. Qed.

Lemma char_title_idemp (c : ascii) : char_title (char_title c) = char_title c.
Proof. destruct c as [[] [] [] [] [] [] [] []]; reflexivity. Qed.

Lemma char_title_lower (c : ascii) : char_title (char_lower c) = char_title c.
Proof. destruct c as [[] [] [] [] [] [] [] []]; reflexivity. Qed.

Lemma char_lower_replace (c : ascii) :
  char_lower (if Ascii.eqb c "_" then " "%char else c)
  = if Ascii.eqb (char_lower c) "_" then " "%char else char_lower c.
Proof. destruct c as [[] [] [] [] [] [] [] []]; reflexivity. Qed.

Lemma str_replace_no_underscore (s : string) :
  "_"%char ∉ chars (str_replace "_" " " s).
Proof.
  induction s as [| c s IH]; simpl; [apply not_elem_of_nil |].
  apply not_elem_of_cons. split; [| exact IH].
  destruct (Ascii.eqb_spec c "_"); [discriminate | congruence].
Qed.

Lemma title_from_no_underscore (b : bool) (s : string) :
  "_"%char ∉ chars s → "_"%char ∉ chars (title_from b s).
Proof.
  revert b. induction s as [| c s IH]; intros b; simpl; [auto |].
  intros Hs. apply not_elem_of_cons in Hs as [Hc Hs].
  apply not_elem_of_cons. split; [| apply IH, Hs].
  destruct b; intros Heq; apply Hc; symmetry;
    [apply char_lower_underscore | apply char_title_underscore]; congruence.
Qed.

Lemma str_replace_without (s : string) :
  "_"%char ∉ chars s → str_replace "_" " " s = s.
Proof.
  induction s as [| c s IH]; simpl; [reflexivity |].
  intros Hs. apply not_elem_of_cons in Hs as [Hc Hs].
  rewrite (IH Hs). destruct (Ascii.eqb_spec c "_"); congruence.
Qed.

Lemma title_from_shaped (b : bool) (s : string) :
  title_shaped b (title_from b s) = true.
Proof.
  revert b. induction s as [| c s IH]; intros b; simpl; [reflexivity |].
  apply andb_true_intro. split.
  - destruct b; [rewrite char_lower_not_upper | rewrite char_title_not_lower];
      reflexivity.
  - destruct b; [rewrite is_cased_char_lower | rewrite is_cased_char_title];
      apply IH.
Qed.

Lemma title_from_idemp (b : bool) (s : string) :
  title_from b (title_from b s) = title_from b s.
Proof.
  revert b. induction s as [| c s IH]; intros b; simpl; [reflexivity |].
  destruct b.
  - rewrite char_lower_idemp, is_cased_char_lower, IH. reflexivity.
  - rewrite char_title_idemp, is_cased_char_title, IH. reflexivity.
Qed.

Lemma title_from_lower (b : bool) (s : string) :
  title_from b (str_lower s) = title_from b s.
Proof.
  revert b. induction s as [| c s IH]; intros b; simpl; [reflexivity |].
  rewrite is_cased_char_lower, IH.
  destruct b; [rewrite char_lower_idemp | rewrite char_title_lower];
    reflexivity.
Qed.

Lemma str_lower_replace (s : string) :
  str_lower (str_replace "_" " " s) = str_replace "_" " " (str_lower s).
Proof.
  induction s as [| c s IH]; simpl; [reflexivity |].
  rewrite IH, char_lower_replace. reflexivity.
Qed.

Lemma get_purpose_display_name_derived (purpose : string) :
  purpose ∉ purposes →
  get_purpose_display_name str_title purpose
    = str_title (str_replace "_" " " purpose).
Proof.
  intros Hnot. rewrite get_purpose_display_name_refines.
  unfold purpose_label_spec. rewrite (fixed_phrase_unknown _ Hnot).
  reflexivity.
Qed.

Lemma purposes_have_underscore (purpose : string) :
  purpose ∈ purposes → "_"%char ∈ chars purpose.
Proof.
  unfold purposes. intros Hin.
  repeat (apply elem_of_cons in Hin as [-> | Hin]);
    [.. | by apply elem_of_nil in Hin]; by_evaluation.
Qed.

Lemma char_title_ascii (c : ascii) :
  nat_of_ascii c < 128 → nat_of_ascii (char_title c) < 128.
Proof.
  intros H. apply Nat.ltb_lt in H. apply Nat.ltb_lt.
  destruct c as [[] [] [] [] [] [] [] []]; vm_compute in H |- *; congruence.
Qed.

Lemma char_lower_ascii (c : ascii) :
  nat_of_ascii c < 128 → nat_of_ascii (char_lower c) < 128.
Proof.
  intros H. apply Nat.ltb_lt in H. apply Nat.ltb_lt.
  destruct c as [[] [] [] [] [] [] [] []]; vm_compute in H |- *; congruence.
Qed.

Lemma str_replace_ascii (s : string) :
  is_ascii_text s → is_ascii_text (str_replace "_" " " s).
Proof.
  unfold is_ascii_text.
  induction s as [| c s IH]; simpl; [auto |].
  intros H. apply Forall_cons in H as [Hc Hs].
  constructor; [| apply IH, Hs].
  destruct (Ascii.eqb c "_"); [vm_compute; lia | exact Hc].
Qed.

Lemma title_from_ascii (b : bool) (s : string) :
  is_ascii_text s → is_ascii_text (title_from b s).
Proof.
  unfold is_ascii_text. revert b.
  induction s as [| c s IH]; intros b; simpl; [auto |].
  intros H. apply Forall_cons in H as [Hc Hs].
  constructor; [| apply IH, Hs].
  destruct b; [apply char_lower_ascii | apply char_title_ascii]; exact Hc.
Qed.

Lemma get_purpose_display_name_ascii (purpose : string) :
  is_ascii_text purpose → purpose ∉ purposes →
  is_ascii_text (get_purpose_display_name str_title purpose).
Proof.
  intros Hascii Hnot. rewrite (get_purpose_display_name_derived _ Hnot).
  apply title_from_ascii, str_replace_ascii, Hascii.
Qed.

(** X5. The label of an unknown purpose written in ASCII has as many
    characters as the purpose, is ASCII, contains no underscore, and is
    title-shaped: no upper-case letter follows a letter and no
    lower-case letter follows a non-letter or starts the label. *)
Theorem get_purpose_display_name_shape (purpose : string) :
  is_ascii_text purpose → purpose ∉ purposes →
  String.length (get_purpose_display_name str_title purpose)
    = String.length purpose
  ∧ is_ascii_text (get_purpose_display_name str_title purpose)
  ∧ ("_"%char ∉ chars (get_purpose_display_name str_title purpose))
  ∧ title_shaped false (get_purpose_display_name str_title purpose) = true.
Proof.
  intros Hascii Hnot.
  split; [| split; [exact (get_purpose_display_name_ascii _ Hascii Hnot) |]].
  - rewrite (get_purpose_display_name_derived _ Hnot). unfold str_title.
    rewrite title_from_length. apply str_replace_length.
  - rewrite (get_purpose_display_name_derived _ Hnot). unfold str_title.
    split.
    + apply title_from_no_underscore, str_replace_no_underscore.
    + apply title_from_shaped.
Qed.

Lemma get_purpose_display_name_shape_witness :
  is_ascii_text "home_loan_topUP"
  ∧ ("home_loan_topUP" ∉ purposes)
  ∧ String.length (get_purpose_display_name str_title "home_loan_topUP") = 15
  ∧ is_ascii_text (get_purpose_display_name str_title "home_loan_topUP")
  ∧ ("_"%char
       ∉ chars (get_purpose_display_name str_title "home_loan_topUP"))
  ∧ title_shaped false (get_purpose_display_name str_title "home_loan_topUP")
    = true.
Proof.
  assert (Ha : is_ascii_text "home_loan_topUP")
    by (repeat constructor; vm_compute; lia).
  assert (H : "home_loan_topUP" ∉ purposes) by by_evaluation.
  split; [exact Ha |]. split; [exact H |].
  exact (get_purpose_display_name_shape "home_loan_topUP" Ha H).
Defined.

(** X6. The label of an unknown purpose written in ASCII does not depend
    on the case of its letters: two such purposes that agree once
    lower-cased have the same label. *)
Theorem get_purpose_display_name_ignores_case (p q : string) :
  is_ascii_text p → is_ascii_text q →
  p ∉ purposes → q ∉ purposes → str_lower p = str_lower q →
  get_purpose_display_name str_title p = get_purpose_display_name str_title q.
Proof.
  intros _ _ Hp Hq Hpq.
  rewrite (get_purpose_display_name_derived _ Hp),
          (get_purpose_display_name_derived _ Hq).
  unfold str_title.
  rewrite <- (title_from_lower false (str_replace "_" " " p)),
          <- (title_from_lower false (str_replace "_" " " q)).
  rewrite !str_lower_replace, Hpq. reflexivity.
Qed.

Lemma get_purpose_display_name_ignores_case_witness :
  is_ascii_text "HOME_loan" ∧ is_ascii_text "home_LOAN"
  ∧ ("HOME_loan" ∉ purposes) ∧ ("home_LOAN" ∉ purposes)
  ∧ str_lower "HOME_loan" = str_lower "home_LOAN"
  ∧ get_purpose_display_name str_title "HOME_loan"
    = get_purpose_display_name str_title "home_LOAN".
Proof.
  assert (Ha : is_ascii_text "HOME_loan")
    by (repeat constructor; vm_compute; lia).
  assert (Hb : is_ascii_text "home_LOAN")
    by (repeat constructor; vm_compute; lia).
  assert (Hp : "HOME_loan" ∉ purposes) by by_evaluation.
  assert (Hq : "home_LOAN" ∉ purposes) by by_evaluation.
  split; [exact Ha |]. split; [exact Hb |].
  split; [exact Hp |]. split; [exact Hq |]. split; [reflexivity |].
  exact (get_purpose_display_name_ignores_case _ _ Ha Hb Hp Hq eq_refl).
Defined.

(** X7. Labelling is stable on ASCII text: the label of an unknown
    purpose written in ASCII is itself ASCII and not one of the six
    keys, and labelling it again changes nothing. *)
Theorem get_purpose_display_name_stable (purpose : string) :
  is_ascii_text purpose → purpose ∉ purposes →
  is_ascii_text (get_purpose_display_name str_title purpose)
  ∧ (get_purpose_display_name str_title purpose ∉ purposes)
  ∧ get_purpose_display_name str_title
      (get_purpose_display_name str_title purpose)
    = get_purpose_display_name str_title purpose.
Proof.
  intros Hascii Hnot.
  split; [exact (get_purpose_display_name_ascii _ Hascii Hnot) |].
  assert (Hno : "_"%char
                ∉ chars (get_purpose_display_name str_title purpose)).
  { rewrite (get_purpose_display_name_derived _ Hnot).
    apply title_from_no_underscore, str_replace_no_underscore. }
  assert (Hlabel : get_purpose_display_name str_title purpose ∉ purposes).
  { intros Hin. apply Hno, purposes_have_underscore, Hin. }
  split; [exact Hlabel |].
  rewrite (get_purpose_display_name_derived _ Hlabel).
  rewrite (str_replace_without _ Hno).
  rewrite (get_purpose_display_name_derived _ Hnot).
  apply title_from_idemp.
Qed.

Lemma get_purpose_display_name_stable_witness :
  is_ascii_text "hOME_loan"
  ∧ ("hOME_loan" ∉ purposes)
  ∧ is_ascii_text "Home Loan"
  ∧ ("Home Loan" ∉ purposes)
  ∧ get_purpose_display_name str_title "Home Loan" = "Home Loan".
Proof.
  assert (Ha : is_ascii_text "hOME_loan")
    by (repeat constructor; vm_compute; lia).
  assert (H : "hOME_loan" ∉ purposes) by by_evaluation.
  split; [exact Ha |]. split; [exact H |].
  exact (get_purpose_display_name_stable "hOME_loan" Ha H).
Defined.

(** ** The vision tool: client, request and reply *)

Section VisionToolMore.
Context (Client Agent : Type) (OpenAI : result Client)
  (open_rb_read : string → result (list Byte.byte))
  (b64encode_decode : list Byte.byte → string)
  (Path_suffix : string → string)
  (chat_completions_create :
     Client → string → string → string → Z → result (list (option string)))
  (question_prompt : string → string) (default_prompt : string).

Local Abbreviation body :=
  (analyze_body Client OpenAI open_rb_read b64encode_decode Path_suffix
     chat_completions_create question_prompt default_prompt).
Local Abbreviation tool :=
  (analyze_document_image Client Agent OpenAI open_rb_read b64encode_decode
     Path_suffix chat_completions_create question_prompt default_prompt).
Local Abbreviation mime := (get_image_mime_type Path_suffix).

(** The prompt and the image URL of the request the tool sends. *)
Local Abbreviation prompt_for question :=
  (if truthy question
   then question_prompt (default "" question) else default_prompt).
Local Abbreviation url_for file_path data :=
  ("data:" +:+ mime file_path +:+ ";base64," +:+ b64encode_decode data).

Lemma analyze_body_request _client file_path filename question c data :
  (get_openai_client Client OpenAI _client).1 = Ok c →
  open_rb_read file_path = Ok data →
  (body _client file_path filename question).1
  = (choices ← chat_completions_create c "gpt-4o" (prompt_for question)
                 (url_for file_path data) 2000;
     result ← list_getitem choices 0;
     if truthy filename
     then Ok (VStr ("Analysis of " +:+ default "" filename +:+ ":" +:+ nl
                    +:+ nl +:+ py_str result))
     else Ok (of_opt_str result)).
Proof.
  intros Hc Hread. unfold analyze_body.
  destruct (get_openai_client Client OpenAI _client) as [got c']. simpl in Hc.
  subst got. simpl. unfold encode_image_to_base64. rewrite Hread. simpl.
  assert (Hprompt :
    match question with
    | Some q => if truthy question then question_prompt q else default_prompt
    | None => default_prompt
    end = prompt_for question) by (destruct question; reflexivity).
  rewrite Hprompt.
  destruct (chat_completions_create c _ _ _ _) as [choices | e]; simpl;
    [| reflexivity].
  destruct (list_getitem choices 0) as [r | e]; simpl; [| reflexivity].
  destruct filename as [fn |]; [| reflexivity].
  destruct (truthy (Some fn)); reflexivity.
Qed.

(** X9. When the client is there, the file is read and the API answers
    with at least one choice, the tool sends one request (model gpt-4o,
    the question prompt if a question is given and the default prompt
    otherwise, the image as a base64 data URL with its MIME type, at
    most 2000 tokens) and returns the content of the first choice: after
    the heading "Analysis of <filename>:" and an empty line when a
    filename is given, as it is otherwise. *)
Theorem analyze_document_image_reply
    _client agent file_path filename question c data content others :
  (get_openai_client Client OpenAI _client).1 = Ok c →
  open_rb_read file_path = Ok data →
  chat_completions_create c "gpt-4o" (prompt_for question)
    (url_for file_path data) 2000 = Ok (content :: others) →
  (tool _client agent file_path filename question).1
  = Ok (if truthy filename
        then VStr ("Analysis of " +:+ default "" filename +:+ ":" +:+ nl
                   +:+ nl +:+ py_str content)
        else of_opt_str content).
Proof.
  intros Hc Hread Hapi. rewrite analyze_document_image_unfold. simpl.
  rewrite (analyze_body_request _ _ _ _ _ _ Hc Hread), Hapi. simpl.
  destruct (truthy filename); reflexivity.
Qed.

(** X10. When the API answers with no choice at all, the tool reports
    the index error as text instead of raising. *)
Theorem analyze_document_image_no_choices
    _client agent file_path filename question c data :
  (get_openai_client Client OpenAI _client).1 = Ok c →
  open_rb_read file_path = Ok data →
  chat_completions_create c "gpt-4o" (prompt_for question)
    (url_for file_path data) 2000 = Ok [] →
  (tool _client agent file_path filename question).1
  = Ok (VStr "Error analyzing document: list index out of range. Please ensure the file path is correct and the image is accessible.").
Proof.
  intros Hc Hread Hapi. rewrite analyze_document_image_unfold. simpl.
  rewrite (analyze_body_request _ _ _ _ _ _ Hc Hread), Hapi. reflexivity.
Qed.

(** An empty filename or question is treated exactly as an absent
    one. *)
Lemma analyze_document_image_empty_arguments
    _client agent file_path filename question :
  analyze_document_image Client Agent OpenAI open_rb_read b64encode_decode
    Path_suffix chat_completions_create question_prompt default_prompt
    _client agent file_path (Some "") question
  = analyze_document_image Client Agent OpenAI open_rb_read b64encode_decode
      Path_suffix chat_completions_create question_prompt default_prompt
      _client agent file_path None question
  ∧ analyze_document_image Client Agent OpenAI open_rb_read b64encode_decode
      Path_suffix chat_completions_create question_prompt default_prompt
      _client agent file_path filename (Some "")
    = analyze_document_image Client Agent OpenAI open_rb_read
        b64encode_decode Path_suffix chat_completions_create question_prompt
        default_prompt _client agent file_path filename None.
Proof. split; reflexivity. Qed.

Lemma mime_types_lookup (ext : string) :
  dict_get (dict_display [ (".jpg", "image/jpeg"); (".jpeg", "image/jpeg");
                           (".png", "image/png"); (".gif", "image/gif");
                           (".webp", "image/webp") ]) ext "image/jpeg"
  = if String.eqb ext ".png" then "image/png"
    else if String.eqb ext ".gif" then "image/gif"
    else if String.eqb ext ".webp" then "image/webp"
    else "image/jpeg".
Proof.
  repeat match goal with
  | |- context [String.eqb ext ?k] =>
      destruct (String.eqb_spec ext k) as [-> | ?];
        [vm_compute; reflexivity |]
  end.
  destruct (String.eqb_spec ext ".jpg") as [-> | ?]; [reflexivity |].
  destruct (String.eqb_spec ext ".jpeg") as [-> | ?]; [reflexivity |].
  unfold dict_get, dict_display. simpl.
  rewrite !lookup_insert_ne by congruence.
  rewrite lookup_empty. reflexivity.
Qed.

(** X11. The MIME type is always one of image/jpeg, image/png, image/gif
    and image/webp, and it is image/jpeg for every file whose
    lower-cased suffix is none of .png, .gif and .webp (a PDF, a file
    without suffix). *)
Theorem get_image_mime_type_default (file_path : string) :
  str_lower (Path_suffix file_path) ∉ [".png"; ".gif"; ".webp"] →
  mime file_path = "image/jpeg"
  ∧ (∀ any : string,
       mime any ∈ ["image/jpeg"; "image/png"; "image/gif"; "image/webp"]).
Proof.
  intros Hext. unfold get_image_mime_type. split.
  - rewrite mime_types_lookup.
    repeat match goal with
    | |- context [String.eqb ?x ?k] =>
        destruct (String.eqb_spec x k) as [Heq | ?];
          [exfalso; apply Hext; rewrite Heq; by_evaluation |]
    end.
    reflexivity.
  - intros any. rewrite mime_types_lookup.
    repeat match goal with
    | |- context [String.eqb ?x ?k] => destruct (String.eqb_spec x k)
    end; by_evaluation.
Qed.
End VisionToolMore.

Lemma analyze_document_image_reply_witness :
  (get_openai_client unit (Ok ()) None).1 = Ok ()
  ∧ (Ok [Byte.x68; Byte.x69] : result (list Byte.byte))
    = Ok [Byte.x68; Byte.x69]
  ∧ (Ok [Some "A PAN card."; None] : result (list (option string)))
    = Ok [Some "A PAN card."; None]
  ∧ (tool_answering [Some "A PAN card."; None] None () "pan.PNG"
       (Some "pan.PNG") None).1
    = Ok (VStr ("Analysis of pan.PNG:" +:+ nl +:+ nl +:+ "A PAN card.")).
Proof.
  split; [reflexivity |]. split; [reflexivity |]. split; [reflexivity |].
  exact (analyze_document_image_reply unit unit (Ok ())
           (fun _ => Ok [Byte.x68; Byte.x69]) (fun _ => "aGk=")
           (fun _ => ".PNG")
           (fun _ _ _ _ _ => Ok [Some "A PAN card."; None])
           (fun q => "Analyze this document image and answer: " +:+ q)
           "Analyze this document image comprehensively."
           None () "pan.PNG" (Some "pan.PNG") None () [Byte.x68; Byte.x69]
           (Some "A PAN card.") [None] eq_refl eq_refl eq_refl).
Defined.

Lemma analyze_document_image_no_choices_witness :
  (get_openai_client unit (Ok ()) None).1 = Ok ()
  ∧ (Ok [Byte.x68; Byte.x69] : result (list Byte.byte))
    = Ok [Byte.x68; Byte.x69]
  ∧ (Ok [] : result (list (option string))) = Ok []
  ∧ (tool_answering [] None () "pan.PNG" (Some "pan.PNG") None).1
    = Ok (VStr "Error analyzing document: list index out of range. Please ensure the file path is correct and the image is accessible.").
Proof.
  split; [reflexivity |]. split; [reflexivity |]. split; [reflexivity |].
  exact (analyze_document_image_no_choices unit unit (Ok ())
           (fun _ => Ok [Byte.x68; Byte.x69]) (fun _ => "aGk=")
           (fun _ => ".PNG") (fun _ _ _ _ _ => Ok [])
           (fun q => "Analyze this document image and answer: " +:+ q)
           "Analyze this document image comprehensively."
           None () "pan.PNG" (Some "pan.PNG") None () [Byte.x68; Byte.x69]
           eq_refl eq_refl eq_refl).
Defined.

Lemma get_image_mime_type_default_witness :
  (str_lower ".PDF" ∉ [".png"; ".gif"; ".webp"])
  ∧ get_image_mime_type (fun _ => ".PDF") "statement.PDF" = "image/jpeg".
Proof.
  assert (H : str_lower ".PDF" ∉ [".png"; ".gif"; ".webp"]) by by_evaluation.
  split; [exact H |].
  exact (proj1 (get_image_mime_type_default (fun _ => ".PDF")
                  "statement.PDF" H)).
Defined.

(** ** The vision tool: what a call does not touch *)

Section VisionToolIndependence.
Context (Client Agent : Type) (OpenAI OpenAI' : result Client)
  (open_rb_read open_rb_read' : string → result (list Byte.byte))
  (b64encode_decode b64encode_decode' : list Byte.byte → string)
  (Path_suffix : string → string)
  (chat_completions_create chat_completions_create' :
     Client → string → string → string → Z → result (list (option string)))
  (question_prompt question_prompt' : string → string)
  (default_prompt default_prompt' : string).

(** X12. When the image file cannot be read, the API is not called and
    nothing is encoded: the outcome of the call is the same whatever the
    API, the encoder and the prompts are. *)
Theorem analyze_document_image_unreadable_file
    _client agent file_path filename question e :
  open_rb_read file_path = Raise e →
  analyze_document_image Client Agent OpenAI open_rb_read
    b64encode_decode Path_suffix chat_completions_create
    question_prompt default_prompt _client agent file_path filename
    question
  = analyze_document_image Client Agent OpenAI open_rb_read
      b64encode_decode' Path_suffix chat_completions_create'
      question_prompt' default_prompt' _client agent file_path filename
      question.
Proof.
  intros Hread.
  unfold analyze_document_image, analyze_body, encode_image_to_base64.
  destruct (get_openai_client Client OpenAI _client) as [[c | e0] c'];
    simpl; [| reflexivity].
  rewrite Hread. reflexivity.
Qed.

(** X13. The tool asks for model gpt-4o with at most 2000 tokens and for
    nothing else: two APIs that agree on such requests give the same
    outcome on every call. *)
Theorem analyze_document_image_model_fixed
    _client agent file_path filename question :
  (∀ c prompt url,
     chat_completions_create c "gpt-4o" prompt url 2000
     = chat_completions_create' c "gpt-4o" prompt url 2000) →
  analyze_document_image Client Agent OpenAI open_rb_read b64encode_decode
    Path_suffix chat_completions_create question_prompt default_prompt
    _client agent file_path filename question
  = analyze_document_image Client Agent OpenAI open_rb_read b64encode_decode
      Path_suffix chat_completions_create' question_prompt default_prompt
      _client agent file_path filename question.
Proof.
  intros Hagree. unfold analyze_document_image, analyze_body.
  destruct (get_openai_client Client OpenAI _client) as [[c | e0] c'];
    simpl; [| reflexivity].
  destruct (encode_image_to_base64 open_rb_read b64encode_decode file_path)
    as [img | e]; simpl; [| reflexivity].
  rewrite Hagree. reflexivity.
Qed.

(** X14. A created client is kept and reused: with a client in place the
    constructor is not consulted and the client stays in place; without
    one, the call leaves a client behind exactly when the constructor
    succeeds, so a failed creation is tried again by the next call, and
    such a call consults neither the file nor the API. *)
Theorem analyze_document_image_client_kept
    agent file_path filename question (c : Client) :
  analyze_document_image Client Agent OpenAI open_rb_read b64encode_decode
    Path_suffix chat_completions_create question_prompt default_prompt
    (Some c) agent file_path filename question
  = analyze_document_image Client Agent OpenAI' open_rb_read b64encode_decode
      Path_suffix chat_completions_create question_prompt default_prompt
      (Some c) agent file_path filename question
  ∧ (analyze_document_image Client Agent OpenAI open_rb_read b64encode_decode
       Path_suffix chat_completions_create question_prompt default_prompt
       (Some c) agent file_path filename question).2 = Some c
  ∧ (analyze_document_image Client Agent OpenAI open_rb_read b64encode_decode
       Path_suffix chat_completions_create question_prompt default_prompt
       None agent file_path filename question).2
    = match OpenAI with Ok c0 => Some c0 | Raise _ => None end
  ∧ (∀ e, OpenAI = Raise e →
       analyze_document_image Client Agent OpenAI open_rb_read
         b64encode_decode Path_suffix chat_completions_create
         question_prompt default_prompt None agent file_path filename
         question
       = analyze_document_image Client Agent OpenAI open_rb_read'
           b64encode_decode' Path_suffix chat_completions_create'
           question_prompt' default_prompt' None agent file_path filename
           question).
Proof.
  split; [reflexivity |]. split; [| split].
  - unfold analyze_document_image, analyze_body. simpl. reflexivity.
  - unfold analyze_document_image, analyze_body, get_openai_client.
    destruct OpenAI; reflexivity.
  - intros e He. unfold analyze_document_image, analyze_body,
      get_openai_client. rewrite He. reflexivity.
Qed.
End VisionToolIndependence.

Lemma analyze_document_image_unreadable_file_witness :
  (Raise no_such_file : result (list Byte.byte)) = Raise no_such_file
  ∧ tool_file_missing None () "missing.png" (Some "missing.png") None
    = analyze_document_image unit unit (Ok ()) (fun _ => Raise no_such_file)
        (fun _ => "aGk=") (fun _ => ".png") api_any_model
        (fun q => "Answer: " +:+ q) "Describe." None () "missing.png"
        (Some "missing.png") None.
Proof.
  split; [reflexivity |].
  exact (analyze_document_image_unreadable_file unit unit (Ok ())
           (fun _ => Raise no_such_file) (fun _ => "") (fun _ => "aGk=")
           (fun _ => ".png") (fun _ _ _ _ _ => Ok [Some "A PAN card."])
           api_any_model (fun q => q) (fun q => "Answer: " +:+ q)
           "Analyze this document image comprehensively." "Describe."
           None () "missing.png" (Some "missing.png") None no_such_file
           eq_refl).
Defined.

Lemma analyze_document_image_model_fixed_witness :
  (∀ (c : unit) (prompt url : string),
     api_gpt4o_only c "gpt-4o" prompt url 2000
     = api_any_model c "gpt-4o" prompt url 2000)
  ∧ analyze_document_image unit unit (Ok ())
      (fun _ => Ok [Byte.x68; Byte.x69]) (fun _ => "aGk=") (fun _ => ".png")
      api_gpt4o_only (fun q => q) "Describe." None () "pan.png" None None
    = analyze_document_image unit unit (Ok ())
        (fun _ => Ok [Byte.x68; Byte.x69]) (fun _ => "aGk=")
        (fun _ => ".png") api_any_model (fun q => q) "Describe." None ()
        "pan.png" None None.
Proof.
  assert (H : ∀ (c : unit) (prompt url : string),
            api_gpt4o_only c "gpt-4o" prompt url 2000
            = api_any_model c "gpt-4o" prompt url 2000)
    by (intros c prompt url; reflexivity).
  split; [exact H |].
  exact (analyze_document_image_model_fixed unit unit (Ok ())
           (fun _ => Ok [Byte.x68; Byte.x69]) (fun _ => "aGk=")
           (fun _ => ".png") api_gpt4o_only api_any_model (fun q => q)
           "Describe." None () "pan.png" None None H).
Defined.

(** ** Attaching files *)

Lemma odict_setitem_keys {V} (k : string) (v : V) (d : list (string * V)) :
  (odict_setitem k v d).*1
  = if bool_decide (k ∈ d.*1) then d.*1 else d.*1 ++ [k].
Proof.
  induction d as [| [k' v'] d IH]; [reflexivity |].
  cbn [odict_setitem].
  destruct (String.eqb_spec k' k) as [-> | Hne]; rewrite !fmap_cons; cbn [fst].
  - rewrite bool_decide_eq_true_2 by (apply elem_of_cons; auto). reflexivity.
  - rewrite IH. destruct (decide (k ∈ d.*1)) as [Hin | Hnot].
    + rewrite !bool_decide_eq_true_2;
        [reflexivity | apply elem_of_cons; auto | exact Hin].
    + rewrite !bool_decide_eq_false_2; [reflexivity | | exact Hnot].
      intros [-> | Hin]%elem_of_cons; [congruence | exact (Hnot Hin)].
Qed.

Lemma odict_get_setitem {V} (k k' : string) (v : V) (d : list (string * V)) :
  odict_get (odict_setitem k v d) k'
  = if String.eqb k k' then Some v else odict_get d k'.
Proof.
  unfold odict_get.
  induction d as [| [k0 v0] d IH]; simpl.
  - destruct (String.eqb k k'); reflexivity.
  - destruct (String.eqb_spec k0 k) as [-> | Hne]; simpl.
    + destruct (String.eqb k k'); reflexivity.
    + destruct (String.eqb_spec k0 k') as [-> | Hne'].
      * apply String.eqb_neq in Hne. rewrite String.eqb_sym, Hne.
        reflexivity.
      * exact IH.
Qed.

Lemma odict_setitem_same {V} (k : string) (v : V) (d : list (string * V)) :
  odict_get d k = Some v → odict_setitem k v d = d.
Proof.
  unfold odict_get.
  induction d as [| [k0 v0] d IH]; simpl; [discriminate |].
  destruct (String.eqb_spec k0 k) as [-> | Hne]; simpl.
  - intros [= ->]. reflexivity.
  - intros H. rewrite (IH H). reflexivity.
Qed.

Lemma odict_get_Some_key {V} (k : string) (v : V) (d : list (string * V)) :
  odict_get d k = Some v → k ∈ d.*1.
Proof.
  unfold odict_get.
  induction d as [| [k0 v0] d IH]; simpl; [discriminate |].
  destruct (String.eqb_spec k0 k) as [-> | Hne]; simpl.
  - intros _. apply elem_of_cons. auto.
  - intros H. apply elem_of_cons. right. exact (IH H).
Qed.

Lemma fresh_names_spec (names keys : list string) (n : string) :
  n ∈ fresh_names keys names ↔ n ∈ names ∧ n ∉ keys.
Proof.
  revert keys. induction names as [| m names IH]; intros keys; simpl.
  - rewrite elem_of_nil. tauto.
  - destruct (decide (m ∈ keys)) as [Hin | Hnot].
    + rewrite bool_decide_eq_true_2 by exact Hin.
      rewrite IH, elem_of_cons. split.
      * intros [H1 H2]. auto.
      * intros [[-> | H1] H2]; [contradiction | auto].
    + rewrite bool_decide_eq_false_2 by exact Hnot.
      rewrite elem_of_cons, IH, elem_of_cons, elem_of_app, list_elem_of_singleton.
      split.
      * intros [-> | [H1 H2]]; [auto |]. split; [auto |]. intros H. apply H2. auto.
      * intros [[-> | H1] H2]; [auto |].
        destruct (decide (n = m)) as [-> | Hne]; [auto |].
        right. split; [exact H1 |]. intros [H | H]; [exact (H2 H) | exact (Hne H)].
Qed.

Lemma fresh_names_NoDup (names keys : list string) :
  NoDup (fresh_names keys names).
Proof.
  revert keys. induction names as [| m names IH]; intros keys; simpl.
  - constructor.
  - destruct (bool_decide (m ∈ keys)); [apply IH |].
    constructor; [| apply IH].
    rewrite fresh_names_spec. intros [_ H]. apply H.
    apply elem_of_app. right. apply list_elem_of_singleton. reflexivity.
Qed.

Lemma fresh_names_disjoint (names keys : list string) :
  NoDup keys → NoDup (keys ++ fresh_names keys names).
Proof.
  intros Hkeys. apply NoDup_app. split; [exact Hkeys |].
  split; [| apply fresh_names_NoDup].
  intros n Hn Hfresh. apply fresh_names_spec in Hfresh as [_ H]. exact (H Hn).
Qed.

Lemma fresh_names_all_known (names keys : list string) :
  Forall (fun n => n ∈ keys) names → fresh_names keys names = [].
Proof.
  induction 1 as [| n names Hn _ IH]; simpl; [reflexivity |].
  rewrite bool_decide_eq_true_2 by exact Hn. exact IH.
Qed.

Section AttachmentFacts.
Context (open_wb_write : string → list Byte.byte → result unit).

Local Abbreviation loop := (attach_loop open_wb_write).
Local Abbreviation attach := (attach_files open_wb_write).
Local Abbreviation path_of temp_dir f :=
  (os_path_join temp_dir (UploadedFile.name f)).

(** When every file is saved the loop ends normally, having appended the
    fresh names to the keys and to [new_files]. *)
Lemma attach_loop_saved temp_dir files uploaded new_files :
  all_saved open_wb_write temp_dir files →
  ∃ uploaded',
    loop temp_dir files uploaded new_files
    = (uploaded',
       new_files ++ fresh_names uploaded.*1 (UploadedFile.name <$> files),
       Ok ())
    ∧ uploaded'.*1
      = uploaded.*1 ++ fresh_names uploaded.*1 (UploadedFile.name <$> files)
    ∧ Forall (fun f => odict_get uploaded' (UploadedFile.name f)
                       = Some (path_of temp_dir f)) files
    ∧ (∀ k, k ∉ UploadedFile.name <$> files →
            odict_get uploaded' k = odict_get uploaded k).
Proof.
  intros Hall. revert uploaded new_files.
  induction Hall as [| f files Hf _ IH]; intros uploaded new_files; simpl.
  - exists uploaded. rewrite !app_nil_r.
    split; [reflexivity |]. split; [reflexivity |].
    split; [constructor | reflexivity].
  - unfold save_uploaded_file. rewrite Hf. simpl.
    unfold odict_contains.
    destruct (IH (odict_setitem (UploadedFile.name f) (path_of temp_dir f)
                    uploaded)
                 (if bool_decide (UploadedFile.name f ∈ uploaded.*1)
                  then new_files else new_files ++ [UploadedFile.name f]))
      as (uploaded' & Hloop & Hkeys & Hget & Hother).
    assert (Hhead : odict_get uploaded' (UploadedFile.name f)
                    = Some (path_of temp_dir f)).
    { destruct (decide (UploadedFile.name f ∈ UploadedFile.name <$> files))
        as [Hin | Hnot].
      - apply list_elem_of_fmap in Hin as (g & Hg & Hin).
        rewrite Forall_forall in Hget. specialize (Hget g Hin).
        rewrite <- Hg in Hget. exact Hget.
      - rewrite (Hother _ Hnot), odict_get_setitem, String.eqb_refl.
        reflexivity. }
    assert (Hrest : ∀ k, k ∉ UploadedFile.name <$> f :: files →
                         odict_get uploaded' k = odict_get uploaded k).
    { intros k Hk. rewrite fmap_cons in Hk.
      apply not_elem_of_cons in Hk as [Hne Hk].
      rewrite (Hother k Hk), odict_get_setitem.
      destruct (String.eqb_spec (UploadedFile.name f) k);
        [congruence | reflexivity]. }
    exists uploaded'. rewrite Hloop, Hkeys, odict_setitem_keys.
    destruct (bool_decide (UploadedFile.name f ∈ uploaded.*1)).
    + split; [reflexivity |]. split; [reflexivity |].
      split; [constructor; assumption | exact Hrest].
    + rewrite <- !app_assoc.
      split; [reflexivity |]. split; [reflexivity |].
      split; [constructor; assumption | exact Hrest].
Qed.
(** Files already registered under their paths are left as they are. *)
Lemma attach_loop_registered temp_dir files uploaded new_files :
  all_saved open_wb_write temp_dir files →
  Forall (fun f => odict_get uploaded (UploadedFile.name f)
                   = Some (path_of temp_dir f)) files →
  loop temp_dir files uploaded new_files = (uploaded, new_files, Ok ()).
Proof.
  intros Hall Hreg. revert new_files.
  induction Hall as [| f files Hf _ IH]; intros new_files; [reflexivity |].
  apply Forall_cons in Hreg as [Hhead Hreg]. simpl.
  unfold save_uploaded_file. rewrite Hf. simpl.
  unfold odict_contains.
  rewrite bool_decide_eq_true_2 by exact (odict_get_Some_key _ _ _ Hhead).
  rewrite (odict_setitem_same _ _ _ Hhead). exact (IH Hreg new_files).
Qed.


(** X15. When every file of a batch is saved, attaching it ends normally
    and leaves each file registered under [temp_dir] joined with its
    name; keys registered before keep their place and their paths unless
    uploaded again, the names not seen before follow them once each in
    upload order, keys stay distinct, the thread is untouched, and the
    acknowledgement flag is raised exactly when some name is new. *)
Theorem attach_files_registers temp_dir st files :
  all_saved open_wb_write temp_dir files →
  (attach temp_dir st files).2 = Ok ()
  ∧ (uploaded_files (attach temp_dir st files).1.1).*1
    = (uploaded_files st).*1
        ++ fresh_names (uploaded_files st).*1 (UploadedFile.name <$> files)
  ∧ Forall (fun f => odict_get (uploaded_files (attach temp_dir st files).1.1)
                       (UploadedFile.name f)
                     = Some (path_of temp_dir f)) files
  ∧ (∀ k, k ∉ UploadedFile.name <$> files →
          odict_get (uploaded_files (attach temp_dir st files).1.1) k
          = odict_get (uploaded_files st) k)
  ∧ (NoDup (uploaded_files st).*1 →
     NoDup (uploaded_files (attach temp_dir st files).1.1).*1)
  ∧ messages (attach temp_dir st files).1.1 = messages st
  ∧ pending_upload_ack (attach temp_dir st files).1.1
    = pending_upload_ack st
      || negb (bool_decide
                 (fresh_names (uploaded_files st).*1
                    (UploadedFile.name <$> files) = [])).
Proof.
  intros Hall.
  destruct (attach_loop_saved temp_dir files (uploaded_files st) [] Hall)
    as (uploaded' & Hloop & Hkeys & Hget & Hother).
  assert (Hshape :
    (attach temp_dir st files).2 = Ok ()
    ∧ uploaded_files (attach temp_dir st files).1.1 = uploaded'
    ∧ messages (attach temp_dir st files).1.1 = messages st
    ∧ pending_upload_ack (attach temp_dir st files).1.1
      = pending_upload_ack st
        || negb (bool_decide
                   (fresh_names (uploaded_files st).*1
                      (UploadedFile.name <$> files) = []))).
  { unfold attach_files. destruct files as [| f files].
    - simpl in *. injection Hloop as <-.
      rewrite orb_false_r. repeat split; reflexivity.
    - rewrite Hloop. rewrite app_nil_l.
      destruct (fresh_names _ _) as [| n fresh]; simpl.
      + rewrite orb_false_r. repeat split; reflexivity.
      + rewrite orb_true_r. repeat split; reflexivity. }
  destruct Hshape as (Hres & Hup & Hmsg & Hpend).
  rewrite Hup.
  split; [exact Hres |]. split; [exact Hkeys |]. split; [exact Hget |].
  split; [exact Hother |]. split; [| split; [exact Hmsg | exact Hpend]].
  intros Hnodup. rewrite Hkeys. apply fresh_names_disjoint, Hnodup.
Qed.

Lemma attach_files_shape temp_dir st files :
  all_saved open_wb_write temp_dir files →
  ∃ st1 notes,
    attach temp_dir st files = (st1, notes, Ok ())
    ∧ Forall (fun f => odict_get (uploaded_files st1) (UploadedFile.name f)
                       = Some (path_of temp_dir f)) files.
Proof.
  intros Hall.
  destruct (attach_loop_saved temp_dir files (uploaded_files st) [] Hall)
    as (uploaded' & Hloop & _ & Hget & _).
  unfold attach_files. destruct files as [| f files].
  - do 2 eexists. split; [reflexivity | constructor].
  - rewrite Hloop. rewrite app_nil_l.
    destruct (fresh_names _ _); do 2 eexists; (split; [reflexivity | exact Hget]).
Qed.

(** X16. Attaching the same batch again, as every rerun of the script
    does while the files stay in the uploader, changes nothing: the
    session state is the one the first pass left, nothing is reported
    new, and the notice is the one for files already attached. *)
Theorem attach_files_again temp_dir st files :
  all_saved open_wb_write temp_dir files →
  attach temp_dir (attach temp_dir st files).1.1 files
  = ((attach temp_dir st files).1.1,
     match files with
     | [] => []
     | _ => [ st_info ("📎 " +:+ pretty.pretty (length files)
                       +:+ " file(s) already attached") ]
     end,
     Ok ()).
Proof.
  intros Hall.
  destruct (attach_files_shape temp_dir st files Hall)
    as (st1 & notes & Heq & Hreg).
  rewrite Heq. simpl.
  unfold attach_files. destruct files as [| f files]; [reflexivity |].
  rewrite (attach_loop_registered _ _ _ [] Hall Hreg).
  destruct st1; reflexivity.
Qed.

End AttachmentFacts.

Lemma attach_files_registers_witness :
  all_saved disk_accepts "/tmp/session" [pan_png; b_png; pan_png]
  ∧ (uploaded_files
       (attach_files disk_accepts "/tmp/session" empty_session
          [pan_png; b_png; pan_png]).1.1).*1
    = ["pan.png"; "b.png"].
Proof.
  assert (H : all_saved disk_accepts "/tmp/session" [pan_png; b_png; pan_png])
    by (repeat constructor).
  split; [exact H |].
  exact (proj1 (proj2 (attach_files_registers disk_accepts "/tmp/session"
                         empty_session [pan_png; b_png; pan_png] H))).
Defined.

Lemma attach_files_again_witness :
  all_saved disk_accepts "/tmp/session" [pan_png; b_png]
  ∧ attach_files disk_accepts "/tmp/session"
      (attach_files disk_accepts "/tmp/session" empty_session
         [pan_png; b_png]).1.1 [pan_png; b_png]
    = ({| messages := [];
          uploaded_files := [ ("pan.png", "/tmp/session/pan.png");
                              ("b.png", "/tmp/session/b.png") ];
          pending_upload_ack := true |},
       [ st_info "📎 2 file(s) already attached" ],
       Ok ()).
Proof.
  assert (H : all_saved disk_accepts "/tmp/session" [pan_png; b_png])
    by (repeat constructor).
  split; [exact H |].
  exact (attach_files_again disk_accepts "/tmp/session" empty_session
           [pan_png; b_png] H).
Defined.


(** ** Blank prompts *)

Lemma chars_nil (s : string) : chars s = [] ↔ s = "".
Proof. destruct s; simpl; split; intros H; first [reflexivity | discriminate H]. Qed.

Lemma chars_rev_app (s1 s2 : string) :
  chars (String.rev_app s1 s2) = reverse (chars s1) ++ chars s2.
Proof.
  revert s2. induction s1 as [| c s1 IH]; intros s2; simpl; [reflexivity |].
  rewrite IH. unfold chars. simpl. rewrite reverse_cons, <- app_assoc.
  reflexivity.
Qed.

Lemma chars_rev (s : string) : chars (String.rev s) = reverse (chars s).
Proof. unfold String.rev. rewrite chars_rev_app. apply app_nil_r. Qed.

Lemma str_lstrip_empty (s : string) :
  str_lstrip s = "" ↔ Forall (fun c => is_whitespace c = true) (chars s).
Proof.
  induction s as [| c s IH]; simpl.
  - split; [constructor | reflexivity].
  - destruct (is_whitespace c) eqn:Hc.
    + rewrite IH. split.
      * intros H. constructor; assumption.
      * intros H. apply Forall_cons in H as [_ H]. exact H.
    + split; [discriminate |].
      intros H. apply Forall_cons in H as [H _]. congruence.
Qed.

Lemma str_strip_empty (s : string) :
  str_strip s = "" ↔ Forall (fun c => is_whitespace c = true) (chars s).
Proof.
  unfold str_strip, str_rstrip.
  rewrite <- chars_nil, chars_rev.
  split.
  - intros H. apply (f_equal reverse) in H. rewrite reverse_involutive in H.
    cbn in H. apply chars_nil, str_lstrip_empty in H.
    rewrite chars_rev, Forall_reverse in H.
    destruct (str_lstrip s) as [| c rest] eqn:Hl.
    + apply str_lstrip_empty, Hl.
    + exfalso. apply Forall_cons in H as [Hc _].
      clear -Hl Hc. induction s as [| c0 s IH]; simpl in Hl; [discriminate |].
      destruct (is_whitespace c0) eqn:Hc0; [exact (IH Hl) |].
      injection Hl as -> _. congruence.
  - intros H. apply str_lstrip_empty in H. rewrite H. reflexivity.
Qed.

Lemma is_whitespace_ascii (c : ascii) :
  is_whitespace c = true → nat_of_ascii c < 128.
Proof.
  intros H. apply Nat.ltb_lt.
  destruct c as [[] [] [] [] [] [] [] []]; vm_compute in H |- *; congruence.
Qed.

Lemma blank_is_ascii_text (s : string) :
  Forall (fun c => is_whitespace c = true) (chars s) → is_ascii_text s.
Proof.
  unfold is_ascii_text. intros H.
  eapply Forall_impl; [exact H | exact is_whitespace_ascii].
Qed.

(** ** The submit handler: every run *)

Lemma paired_app (l1 l2 : list Message) :
  paired l1 → paired l2 → paired (l1 ++ l2).
Proof.
  intros H1 H2. remember (length l1) as n eqn:Hn.
  revert l1 Hn H1. induction n as [n IH] using lt_wf_ind.
  intros [| u [| a rest]] Hn H1; simpl in *; [exact H2 | contradiction |].
  destruct H1 as (Hu & Ha & Hrest). split; [exact Hu |]. split; [exact Ha |].
  apply (IH (length rest)); [lia | reflexivity | exact Hrest].
Qed.

Lemma paired_even (l : list Message) : paired l → Nat.Even (length l).
Proof.
  remember (length l) as n eqn:Hn.
  revert l Hn. induction n as [n IH] using lt_wf_ind.
  intros [| u [| a rest]] Hn H; simpl in *; subst n.
  - exists 0. reflexivity.
  - contradiction.
  - destruct H as (_ & _ & Hrest).
    destruct (IH (length rest) ltac:(lia) rest eq_refl Hrest) as [k Hk].
    exists (S k). lia.
Qed.

Section SubmitHandlerMore.
Context (strip : string → string) (os_path_exists : string → bool)
        (agent_run agent_run' : string → result Response).

Local Abbreviation handler := (on_submit strip os_path_exists agent_run).
Local Abbreviation user_message := (build_user_message os_path_exists).

(** X18. Whenever [str.strip] does on ASCII text what [str_strip] does,
    a request that was not submitted, or whose prompt is empty or made
    of ASCII white space only, is ignored: the session is left as it is,
    nothing is drawn and the agent is not called. *)
Theorem on_submit_blank_ignored st submitted prompt :
  (∀ s, is_ascii_text s → strip s = str_strip s) →
  submitted = false
  ∨ Forall (fun c => is_whitespace c = true) (chars prompt) →
  on_submit strip os_path_exists agent_run st submitted prompt
    = (st, [], FallsThrough)
  ∧ on_submit strip os_path_exists agent_run' st submitted prompt
    = on_submit strip os_path_exists agent_run st submitted prompt.
Proof.
  intros Hstrip Hblank.
  assert (Hcond : submitted && negb (String.eqb (strip prompt) "")
                  = false).
  { destruct Hblank as [-> | Hws]; [reflexivity |].
    rewrite (Hstrip _ (blank_is_ascii_text _ Hws)).
    apply str_strip_empty in Hws. rewrite Hws.
    apply andb_false_r. }
  unfold on_submit. rewrite Hcond. split; reflexivity.
Qed.

(** X19. When the agent answers a submitted prompt that [str.strip]
    does not leave empty, the thread gains the customer's message and
    the assistant's reply (the [content] of the response, or its text
    when it has no such attribute), the acknowledgement flag is cleared,
    the attachments stay, nothing is drawn and the script is rerun. *)
Theorem on_submit_success st prompt response :
  strip prompt ≠ "" →
  agent_run (user_message st prompt) = Ok response →
  on_submit strip os_path_exists agent_run st true prompt
  = ({| messages := messages st
          ++ [ {| role := "user"; content := VStr prompt |};
               {| role := "assistant";
                  content := match content_attr response with
                             | Some c => of_opt_str c
                             | None => VStr (as_str response)
                             end |} ];
        uploaded_files := uploaded_files st;
        pending_upload_ack := false |},
     [], Rerun).
Proof.
  intros Hp Hrun. apply String.eqb_neq in Hp.
  unfold on_submit. rewrite Hp. simpl.
  unfold try_block. rewrite build_user_message_append, Hrun. simpl.
  rewrite <- app_assoc. reflexivity.
Qed.

Lemma on_submit_cases st submitted prompt :
  handler st submitted prompt = (st, [], FallsThrough)
  ∨ (∃ reply ui,
       handler st submitted prompt
       = ({| messages := messages st
               ++ [ {| role := "user"; content := VStr prompt |};
                    {| role := "assistant"; content := reply |} ];
             uploaded_files := uploaded_files st;
             pending_upload_ack := pending_upload_ack st |},
          ui, FallsThrough))
  ∨ (∃ reply,
       handler st submitted prompt
       = ({| messages := messages st
               ++ [ {| role := "user"; content := VStr prompt |};
                    {| role := "assistant"; content := reply |} ];
             uploaded_files := uploaded_files st;
             pending_upload_ack := false |},
          [], Rerun))
  ∨ (∃ e,
       handler st submitted prompt
       = ({| messages := messages st
               ++ [ {| role := "user"; content := VStr prompt |} ];
             uploaded_files := uploaded_files st;
             pending_upload_ack := pending_upload_ack st |},
          [], Propagates e)).
Proof.
  unfold on_submit.
  destruct (submitted && negb (String.eqb (strip prompt) ""));
    [| left; reflexivity].
  right. unfold try_block.
  destruct (agent_run _) as [response | e]; simpl.
  - right. left. eexists. rewrite <- app_assoc. reflexivity.
  - destruct (is_Exception (exn_cls e)).
    + left. do 2 eexists. unfold append_message. simpl.
      rewrite <- app_assoc. reflexivity.
    + right. right. eexists. reflexivity.
Qed.

(** X20. On every run the handler leaves the attachments as they are,
    keeps the earlier messages in place in front of what it adds, adds
    at most two messages, never raises the acknowledgement flag, and
    clears it only on a run that ends in a rerun. *)
Theorem on_submit_preserves st submitted prompt :
  uploaded_files
    (on_submit strip os_path_exists agent_run st submitted prompt).1.1
    = uploaded_files st
  ∧ messages st
      `prefix_of`
      messages
        (on_submit strip os_path_exists agent_run st submitted prompt).1.1
  ∧ length
      (messages
         (on_submit strip os_path_exists agent_run st submitted prompt).1.1)
      ≤ length (messages st) + 2
  ∧ (pending_upload_ack
       (on_submit strip os_path_exists agent_run st submitted prompt).1.1
       = pending_upload_ack st
     ∨ (on_submit strip os_path_exists agent_run st submitted prompt).2
       = Rerun
       ∧ pending_upload_ack
           (on_submit strip os_path_exists agent_run st submitted prompt).1.1
         = false).
Proof.
  destruct (on_submit_cases st submitted prompt)
    as [-> | [(reply & ui & ->) | [(reply & ->) | (e & ->)]]]; simpl.
  - split; [reflexivity |]. split; [reflexivity |]. split; [lia | auto].
  - split; [reflexivity |]. split; [apply prefix_app_r; reflexivity |].
    split; [rewrite length_app; simpl; lia | auto].
  - split; [reflexivity |]. split; [apply prefix_app_r; reflexivity |].
    split; [rewrite length_app; simpl; lia | auto].
  - split; [reflexivity |]. split; [apply prefix_app_r; reflexivity |].
    split; [rewrite length_app; simpl; lia | auto].
Qed.

(** X21. A thread made of exchanges, each a customer message followed by
    the assistant's reply, stays one on every run that ends normally or
    in a rerun; a run that an exception leaves (one that is not of class
    [Exception]) ends with the customer's message unanswered. *)
Theorem on_submit_keeps_exchanges st submitted prompt :
  paired (messages st) →
  ((∀ e, (handler st submitted prompt).2 ≠ Propagates e) →
   paired (messages (handler st submitted prompt).1.1))
  ∧ (∀ e, (handler st submitted prompt).2 = Propagates e →
          ¬ paired (messages (handler st submitted prompt).1.1)
          ∧ is_Exception (exn_cls e) = false).
Proof.
  intros Hpaired.
  destruct (on_submit_cases st submitted prompt)
    as [Heq | [(reply & ui & Heq) | [(reply & Heq) | (e & Heq)]]].
  - rewrite Heq. simpl. split; [auto | discriminate].
  - rewrite Heq. simpl. split; [| discriminate].
    intros _. apply paired_app; [exact Hpaired |]. simpl. auto.
  - rewrite Heq. simpl. split; [| discriminate].
    intros _. apply paired_app; [exact Hpaired |]. simpl. auto.
  - split.
    + intros Hno. exfalso. apply (Hno e). rewrite Heq. reflexivity.
    + intros e' He'. split.
      * rewrite Heq. simpl. intros Hodd.
        apply paired_even in Hodd. apply paired_even in Hpaired.
        rewrite length_app in Hodd. simpl in Hodd.
        destruct Hodd as [k Hk], Hpaired as [j Hj]. lia.
      * exact (on_submit_escapes _ _ _ _ _ _ _ He').
Qed.
End SubmitHandlerMore.

Lemma on_submit_blank_ignored_witness :
  (∀ s, is_ascii_text s → str_strip s = str_strip s)
  ∧ (true = false
     ∨ Forall (fun c => is_whitespace c = true) (chars blank_prompt))
  ∧ on_submit str_strip (fun _ => true) agent_answers session_with_upload
      true blank_prompt
    = (session_with_upload, [], FallsThrough).
Proof.
  assert (Hs : ∀ s, is_ascii_text s → str_strip s = str_strip s)
    by reflexivity.
  assert (H : true = false
              ∨ Forall (fun c => is_whitespace c = true) (chars blank_prompt))
    by (right; repeat constructor).
  split; [exact Hs |]. split; [exact H |].
  exact (proj1 (on_submit_blank_ignored str_strip (fun _ => true)
                  agent_answers agent_unreachable session_with_upload true
                  blank_prompt Hs H)).
Defined.

Lemma on_submit_success_witness :
  str_strip "Check my PAN" ≠ ""
  ∧ agent_answers
      (build_user_message (fun _ => true) session_with_upload "Check my PAN")
    = Ok {| content_attr := Some (Some "Your PAN card looks valid.");
            as_str := "RunOutput" |}
  ∧ on_submit str_strip (fun _ => true) agent_answers session_with_upload
      true "Check my PAN"
    = ({| messages :=
            [ {| role := "user"; content := VStr "Check my PAN" |};
              {| role := "assistant";
                 content := VStr "Your PAN card looks valid." |} ];
          uploaded_files := [("pan.png", "/tmp/session/pan.png")];
          pending_upload_ack := false |},
       [], Rerun).
Proof.
  assert (H : str_strip "Check my PAN" ≠ "") by (vm_compute; discriminate).
  split; [exact H |]. split; [reflexivity |].
  exact (on_submit_success str_strip (fun _ => true) agent_answers
           session_with_upload "Check my PAN" _ H eq_refl).
Defined.

Lemma on_submit_keeps_exchanges_witness :
  paired (messages empty_session)
  ∧ paired (messages (on_submit str_strip (fun _ => true) agent_unreachable
                        empty_session true "Check my PAN").1.1).
Proof.
  assert (H : paired (messages empty_session)) by exact I.
  split; [exact H |].
  apply (proj1 (on_submit_keeps_exchanges str_strip (fun _ => true)
                  agent_unreachable empty_session true "Check my PAN" H)).
  intros e. discriminate.
Defined.

(** ** The message sent to the agent *)

Lemma str_app_assoc (s1 s2 s3 : string) :
  (s1 +:+ s2) +:+ s3 = s1 +:+ (s2 +:+ s3).
Proof.
  induction s1 as [| c s1 IH]; [reflexivity |].
  exact (f_equal (String c) IH).
Qed.

Lemma str_app_nil_r (s : string) : s +:+ "" = s.
Proof.
  induction s as [| c s IH]; [reflexivity |].
  exact (f_equal (String c) IH).
Qed.

Lemma str_contains_here (sub after : string) : str_contains sub (sub +:+ after).
Proof. exists "", after. reflexivity. Qed.

Lemma str_contains_app_l (sub s t : string) :
  str_contains sub s → str_contains sub (s +:+ t).
Proof.
  intros (b & a & ->). exists b, (a +:+ t).
  rewrite ?str_app_assoc. reflexivity.
Qed.

Lemma str_contains_app_r (sub s t : string) :
  str_contains sub t → str_contains sub (s +:+ t).
Proof.
  intros (b & a & ->). exists (s +:+ b), a.
  rewrite ?str_app_assoc. reflexivity.
Qed.

Section UserMessageFacts.
Context (os_path_exists : string → bool).

Local Abbreviation user_message := (build_user_message os_path_exists).
Local Abbreviation entry := (file_entry os_path_exists).
Local Abbreviation entries := (file_entries os_path_exists).
Local Abbreviation step :=
  (fun (file_info : string) '(filename, file_path) =>
     if os_path_exists file_path then
       file_info +:+ "File: " +:+ filename +:+ nl
         +:+ "Path: " +:+ file_path +:+ nl +:+ nl
     else
       file_info +:+ "File: " +:+ filename +:+ " (path not found: "
         +:+ file_path +:+ ")" +:+ nl +:+ nl).

(** The loop appends one entry per file, in dict order. *)
Lemma file_info_loop (files : list (string * string)) (file_info : string) :
  foldl step file_info files = file_info +:+ entries files.
Proof.
  revert file_info.
  induction files as [| [fn p] files IH]; intros file_info; simpl.
  - symmetry. apply str_app_nil_r.
  - rewrite IH. unfold file_entry.
    destruct (os_path_exists p); rewrite ?str_app_assoc; reflexivity.
Qed.

Lemma file_entries_contains (files : list (string * string)) fn p :
  (fn, p) ∈ files → str_contains (entry fn p) (entries files).
Proof.
  induction files as [| [fn' p'] files IH]; intros Hin.
  - apply elem_of_nil in Hin. contradiction.
  - apply elem_of_cons in Hin as [[= <- <-] | Hin]; simpl.
    + apply str_contains_here.
    + apply str_contains_app_r, IH, Hin.
Qed.

Lemma build_user_message_unfold st prompt :
  user_message st prompt
  = match uploaded_files st with
    | [] => prompt
    | files =>
        prompt
        +:+ (if pending_upload_ack st then new_uploads_instructions else "")
        +:+ (nl +:+ nl +:+ "[UPLOADED FILES AVAILABLE FOR ANALYSIS]" +:+ nl)
        +:+ entries files
        +:+ "You can use the analyze_document_image tool with these file paths to verify documents."
    end.
Proof.
  unfold build_user_message. destruct (uploaded_files st) as [| f files];
    [reflexivity |].
  unfold file_info_text. rewrite file_info_loop.
  rewrite ?str_app_assoc. reflexivity.
Qed.

(** X22. With no attachment the agent is sent the prompt as typed.  With
    attachments the message starts with the prompt, carries the section
    heading [UPLOADED FILES AVAILABLE FOR ANALYSIS], one entry for each
    attachment (its name, and its path when the file exists, the note
    "path not found" otherwise) and, while the acknowledgement flag is
    raised, the [NEW UPLOADS] request. *)
Theorem build_user_message_lists_files st prompt filename file_path :
  (filename, file_path) ∈ uploaded_files st →
  (∃ rest, user_message st prompt = prompt +:+ rest)
  ∧ str_contains "[UPLOADED FILES AVAILABLE FOR ANALYSIS]"
      (user_message st prompt)
  ∧ str_contains
      (if os_path_exists file_path
       then "File: " +:+ filename +:+ nl +:+ "Path: " +:+ file_path +:+ nl
       else "File: " +:+ filename +:+ " (path not found: " +:+ file_path
            +:+ ")" +:+ nl)
      (user_message st prompt)
  ∧ (pending_upload_ack st = true →
     str_contains "[NEW UPLOADS]" (user_message st prompt))
  ∧ (∀ st0, uploaded_files st0 = [] → user_message st0 prompt = prompt).
Proof.
  intros Hin. rewrite build_user_message_unfold.
  destruct (uploaded_files st) as [| f files] eqn:Hfiles;
    [apply elem_of_nil in Hin; contradiction |].
  split; [eexists; reflexivity |].
  split.
  { apply str_contains_app_r, str_contains_app_r, str_contains_app_l.
    exists (nl +:+ nl), nl. rewrite ?str_app_assoc. reflexivity. }
  split.
  { apply str_contains_app_r, str_contains_app_r, str_contains_app_r,
      str_contains_app_l.
    destruct (file_entries_contains _ _ _ Hin) as (b & a & Heq).
    rewrite Heq. apply str_contains_app_r. unfold file_entry.
    destruct (os_path_exists file_path).
    - exists "", (nl +:+ a). rewrite ?str_app_assoc. reflexivity.
    - exists "", (nl +:+ a). rewrite ?str_app_assoc. reflexivity. }
  split.
  { intros ->. apply str_contains_app_r, str_contains_app_l.
    unfold new_uploads_instructions.
    apply str_contains_app_r, str_contains_app_r, str_contains_here. }
  intros st0 H0. unfold build_user_message. rewrite H0. reflexivity.
Qed.
End UserMessageFacts.

Lemma build_user_message_lists_files_witness :
  (("pan.png", "/tmp/session/pan.png") ∈ uploaded_files session_with_upload)
  ∧ build_user_message (fun _ => true) session_with_upload "Check my PAN"
    = "Check my PAN" +:+ nl +:+ nl +:+ "[NEW UPLOADS]" +:+ nl
      +:+ "Please confirm you have received and reviewed the newly attached files listed below before addressing the customer's request."
      +:+ nl +:+ nl +:+ nl +:+ "[UPLOADED FILES AVAILABLE FOR ANALYSIS]"
      +:+ nl +:+ "File: pan.png" +:+ nl +:+ "Path: /tmp/session/pan.png"
      +:+ nl +:+ nl
      +:+ "You can use the analyze_document_image tool with these file paths to verify documents."
  ∧ str_contains "[UPLOADED FILES AVAILABLE FOR ANALYSIS]"
      (build_user_message (fun _ => true) session_with_upload "Check my PAN").
Proof.
  assert (H : ("pan.png", "/tmp/session/pan.png")
              ∈ uploaded_files session_with_upload)
    by (apply elem_of_cons; left; reflexivity).
  split; [exact H |]. split; [reflexivity |].
  exact (proj1 (proj2 (build_user_message_lists_files (fun _ => true)
                         session_with_upload "Check my PAN" _ _ H))).
Defined.

(** ** Loading the other modules *)

Lemma SOURCES_outside (m : string) :
  m ∉ source_modules → SOURCES !! m = None.
Proof.
  intros Hnot. unfold SOURCES, dict_display. simpl.
  unfold source_modules in Hnot.
  rewrite !lookup_insert_ne; first apply lookup_empty.
  all: intros <-; apply Hnot; by_evaluation.
Qed.

Lemma first_unbound_none (ns names : list string) :
  names ⊆ ns → first_unbound ns names = None.
Proof.
  intros Hsub. unfold first_unbound.
  induction names as [| n names IH]; simpl; [reflexivity |].
  rewrite bool_decide_eq_true_2 by (apply Hsub, elem_of_cons; auto). simpl.
  apply IH. intros x Hx. apply Hsub, elem_of_cons. auto.
Qed.

Section LoadingMore.
Context (installed : string → option (list string)).

Local Abbreviation load := (load_module installed).

Lemma load_models fuel :
  binds_or_fails (top_level_names models_py) (load (S (S fuel)) "models").
Proof.
  apply load_module_source; [reflexivity |].
  unfold models_py; cbn [imports import_target].
  each_import; apply load_module_outside; reflexivity.
Qed.

Lemma load_document_requirements fuel :
  binds_or_fails (top_level_names document_requirements_py)
                 (load (S (S (S fuel))) "document_requirements").
Proof.
  apply load_module_source; [reflexivity |].
  unfold document_requirements_py; cbn [imports import_target].
  each_import.
  - apply load_module_outside; reflexivity.
  - eapply binds_loads, load_models.
Qed.

(** X23. The imports of the five importable sources nest at most four
    deep and never form a cycle: with a budget of four, loading any of
    [models], [document_requirements], [verification_tools],
    [verification_agent] and [example_usage] ends, either with the
    module's names or with an [ImportError]. *)
Theorem load_module_ends (fuel : nat) (m : string) :
  4 ≤ fuel → m ∈ source_modules →
  loads_or_fails (load_module installed fuel m).
Proof.
  intros Hfuel Hin. destruct fuel as [| [| [| [| fuel]]]]; try lia.
  unfold source_modules in Hin.
  repeat (apply elem_of_cons in Hin as [-> | Hin]);
    [.. | by apply elem_of_nil in Hin].
  - eapply binds_loads, load_models.
  - eapply binds_loads, load_document_requirements.
  - eapply binds_loads, load_verification_tools.
  - eapply binds_loads, load_verification_agent.
  - right. apply load_example_usage.
Qed.

(** An import that finds its module and its names binds them. *)
Lemma exec_imports_bound (ld : string → option (result (list string)))
    (stmts : list import_stmt) (globals : list string) :
  Forall (fun i => ∃ ns, ld (import_target i) = Some (Ok ns)
                         ∧ import_names i ⊆ ns) stmts →
  exec_imports ld globals stmts
  = Some (Ok (globals ++ mjoin (import_binds <$> stmts))).
Proof.
  intros Hall. revert globals.
  induction Hall as [| i stmts (ns & Hns & Hsub) _ IH]; intros globals; simpl.
  - rewrite app_nil_r. reflexivity.
  - destruct i as [m names | m]; simpl in *; rewrite Hns.
    + rewrite (first_unbound_none _ _ Hsub), IH, <- app_assoc. reflexivity.
    + rewrite IH, <- app_assoc. reflexivity.
Qed.

Lemma load_module_bound fuel m src :
  SOURCES !! m = Some src →
  Forall (fun i => ∃ ns, load fuel (import_target i) = Some (Ok ns)
                         ∧ import_names i ⊆ ns) (imports src) →
  load (S fuel) m = Some (Ok (top_level_names src)).
Proof.
  intros Hm Hall. simpl. rewrite Hm.
  rewrite (exec_imports_bound _ _ [] Hall). reflexivity.
Qed.

Lemma load_outside_provided fuel m names :
  environment_complete installed →
  (∃ all, (m, all) ∈ outside_imports ∧ names ⊆ all) →
  ∃ ns, load (S fuel) m = Some (Ok ns) ∧ names ⊆ ns.
Proof.
  intros Henv (all & Hin & Hsub).
  unfold environment_complete in Henv. rewrite Forall_forall in Henv.
  destruct (Henv _ Hin) as (ns & Hns & Hall). simpl in Hns, Hall.
  assert (Hout : SOURCES !! m = None).
  { apply SOURCES_outside. unfold outside_imports in Hin.
    repeat (apply elem_of_cons in Hin as [[= -> _] | Hin]);
      [.. | by apply elem_of_nil in Hin]; by_evaluation. }
  exists ns. split; [| etransitivity; eassumption].
  simpl. rewrite Hout, Hns. reflexivity.
Qed.

Ltac provided Henv :=
  apply (load_outside_provided _ _ _ Henv);
  eexists; split;
    [ unfold outside_imports;
      repeat first [ apply list_elem_of_here | apply list_elem_of_further ]
    | by_evaluation ].

(** X24. In an installation that has every outside module the sources
    import, with the names taken from it, each source module other than
    [example_usage] loads and binds its top-level names; in particular
    [verification_agent] binds [create_agent], which [app.py] imports,
    and [document_requirements] binds the two functions
    [example_usage] asks for. *)
Theorem source_modules_load (fuel : nat) :
  environment_complete installed →
  load (S (S fuel)) "models" = Some (Ok (top_level_names models_py))
  ∧ load (S (S (S fuel))) "document_requirements"
    = Some (Ok (top_level_names document_requirements_py))
  ∧ load (S (S fuel)) "verification_tools"
    = Some (Ok (top_level_names verification_tools_py))
  ∧ load (S (S (S fuel))) "verification_agent"
    = Some (Ok (top_level_names verification_agent_py))
  ∧ ("create_agent" ∈ top_level_names verification_agent_py)
  ∧ (["get_required_documents"; "get_purpose_display_name"]
       ⊆ top_level_names document_requirements_py).
Proof.
  intros Henv.
  assert (Hmodels : ∀ f, load (S (S f)) "models"
                         = Some (Ok (top_level_names models_py))).
  { intros f. apply load_module_bound; [reflexivity |].
    unfold models_py; cbn [imports import_target import_names].
    each_import; provided Henv. }
  assert (Htools : ∀ f, load (S (S f)) "verification_tools"
                        = Some (Ok (top_level_names verification_tools_py))).
  { intros f. apply load_module_bound; [reflexivity |].
    unfold verification_tools_py; cbn [imports import_target import_names].
    each_import; provided Henv. }
  split; [apply Hmodels |]. split; [| split; [apply Htools |]].
  - apply load_module_bound; [reflexivity |].
    unfold document_requirements_py; cbn [imports import_target import_names].
    each_import; [provided Henv |].
    eexists. split; [apply Hmodels | by_evaluation].
  - split; [| split; by_evaluation].
    apply load_module_bound; [reflexivity |].
    unfold verification_agent_py; cbn [imports import_target import_names].
    each_import; [provided Henv | provided Henv |].
    eexists. split; [apply Htools | by_evaluation].
Qed.
End LoadingMore.

Lemma load_module_ends_witness :
  4 ≤ 4 ∧ "verification_agent" ∈ source_modules
  ∧ loads_or_fails (load_module all_installed 4 "verification_agent").
Proof.
  assert (Hin : "verification_agent" ∈ source_modules) by by_evaluation.
  split; [lia |]. split; [exact Hin |].
  exact (load_module_ends all_installed 4 "verification_agent" (le_n 4) Hin).
Defined.

Lemma all_installed_complete : environment_complete all_installed.
Proof.
  unfold environment_complete, outside_imports.
  repeat first [ apply Forall_nil_2 | apply Forall_cons_2 ];
    (eexists; split; [reflexivity | by_evaluation]).
Defined.

Lemma source_modules_load_witness :
  environment_complete all_installed
  ∧ load_module all_installed 3 "verification_agent"
    = Some (Ok [ "Agent"; "OpenAIChat"; "analyze_document_image";
                 "get_verification_prompt"; "create_agent" ]).
Proof.
  split; [exact all_installed_complete |].
  exact (proj1 (proj2 (proj2 (proj2
           (source_modules_load all_installed 0 all_installed_complete))))).
Defined.

(** ** From attaching to sending *)

Lemma odict_get_Some_elem {V} (k : string) (v : V) (d : list (string * V)) :
  odict_get d k = Some v → (k, v) ∈ d.
Proof.
  unfold odict_get.
  induction d as [| [k0 v0] d IH]; simpl; [discriminate |].
  destruct (String.eqb_spec k0 k) as [-> | Hne]; simpl.
  - intros [= ->]. apply list_elem_of_here.
  - intros H. apply list_elem_of_further, IH, H.
Qed.

Section AttachThenSubmit.
Context (open_wb_write : string → list Byte.byte → result unit)
        (strip : string → string) (os_path_exists : string → bool)
        (agent_run : string → result Response).

(** X25. After a batch with a file of a new name has been attached, the
    next message to the agent carries the [NEW UPLOADS] request and the
    entry of that file; once the agent has answered that message, sent
    with a prompt that [str.strip] does not leave empty, a later message
    lists the same attachments without the request. *)
Theorem attach_then_submit temp_dir st files f prompt response later :
  all_saved open_wb_write temp_dir files →
  f ∈ files →
  UploadedFile.name f ∉ (uploaded_files st).*1 →
  strip prompt ≠ "" →
  agent_run
    (build_user_message os_path_exists
       (attach_files open_wb_write temp_dir st files).1.1 prompt)
    = Ok response →
  str_contains "[NEW UPLOADS]"
    (build_user_message os_path_exists
       (attach_files open_wb_write temp_dir st files).1.1 prompt)
  ∧ str_contains
      (file_entry os_path_exists (UploadedFile.name f)
         (os_path_join temp_dir (UploadedFile.name f)))
      (build_user_message os_path_exists
         (attach_files open_wb_write temp_dir st files).1.1 prompt)
  ∧ build_user_message os_path_exists
      (on_submit strip os_path_exists agent_run
         (attach_files open_wb_write temp_dir st files).1.1 true prompt).1.1
      later
    = later
      +:+ (nl +:+ nl +:+ "[UPLOADED FILES AVAILABLE FOR ANALYSIS]" +:+ nl)
      +:+ file_entries os_path_exists
            (uploaded_files (attach_files open_wb_write temp_dir st files).1.1)
      +:+ "You can use the analyze_document_image tool with these file paths to verify documents.".
Proof.
  intros Hall Hf Hnew Hprompt Hrun.
  destruct (attach_loop_saved open_wb_write temp_dir files (uploaded_files st)
              [] Hall) as (uploaded' & Hloop & Hkeys & Hget & _).
  assert (Hfresh : UploadedFile.name f
                   ∈ fresh_names (uploaded_files st).*1
                       (UploadedFile.name <$> files)).
  { apply fresh_names_spec. split; [| exact Hnew].
    apply list_elem_of_fmap_2, Hf. }
  assert (Hst1 : ∃ notes,
            attach_files open_wb_write temp_dir st files
            = ({| messages := messages st; uploaded_files := uploaded';
                  pending_upload_ack := true |}, notes, Ok ())).
  { unfold attach_files. destruct files as [| g files];
      [apply elem_of_nil in Hf; contradiction |].
    rewrite Hloop, app_nil_l.
    destruct (fresh_names _ _) as [| n fresh];
      [apply elem_of_nil in Hfresh; contradiction |].
    eexists. reflexivity. }
  destruct Hst1 as (notes & Hst1). rewrite Hst1 in *. simpl in *.
  assert (Hentry : (UploadedFile.name f,
                    os_path_join temp_dir (UploadedFile.name f)) ∈ uploaded').
  { rewrite Forall_forall in Hget. apply odict_get_Some_elem, Hget, Hf. }
  destruct uploaded' as [| u rest];
    [apply elem_of_nil in Hentry; contradiction |].
  split; [| split].
  - rewrite build_user_message_unfold.
    cbn [uploaded_files pending_upload_ack].
    apply str_contains_app_r, str_contains_app_l.
    unfold new_uploads_instructions.
    apply str_contains_app_r, str_contains_app_r, str_contains_here.
  - rewrite build_user_message_unfold.
    cbn [uploaded_files pending_upload_ack].
    apply str_contains_app_r, str_contains_app_r, str_contains_app_r,
      str_contains_app_l.
    apply file_entries_contains, Hentry.
  - apply String.eqb_neq in Hprompt.
    unfold on_submit. rewrite Hprompt.
    cbn [andb negb]. unfold try_block.
    rewrite build_user_message_append, Hrun.
    cbn [mbind result_bind fst snd].
    rewrite build_user_message_unfold.
    cbn [uploaded_files pending_upload_ack append_message].
    reflexivity.
Qed.
End AttachThenSubmit.

Lemma attach_then_submit_witness :
  all_saved disk_accepts "/tmp/session" [pan_png]
  ∧ pan_png ∈ [pan_png]
  ∧ (UploadedFile.name pan_png ∉ (uploaded_files empty_session).*1)
  ∧ str_strip "Check my PAN" ≠ ""
  ∧ agent_answers
      (build_user_message (fun _ => true)
         (attach_files disk_accepts "/tmp/session" empty_session
            [pan_png]).1.1 "Check my PAN")
    = Ok {| content_attr := Some (Some "Your PAN card looks valid.");
            as_str := "RunOutput" |}
  ∧ str_contains "[NEW UPLOADS]"
      (build_user_message (fun _ => true)
         (attach_files disk_accepts "/tmp/session" empty_session
            [pan_png]).1.1 "Check my PAN").
Proof.
  assert (H1 : all_saved disk_accepts "/tmp/session" [pan_png])
    by (repeat constructor).
  assert (H2 : pan_png ∈ [pan_png]) by apply list_elem_of_here.
  assert (H3 : UploadedFile.name pan_png ∉ (uploaded_files empty_session).*1)
    by apply not_elem_of_nil.
  assert (H4 : str_strip "Check my PAN" ≠ "") by (vm_compute; discriminate).
  split; [exact H1 |]. split; [exact H2 |]. split; [exact H3 |].
  split; [exact H4 |]. split; [reflexivity |].
  exact (proj1 (attach_then_submit disk_accepts str_strip (fun _ => true)
                  agent_answers "/tmp/session" empty_session [pan_png] pan_png
                  "Check my PAN" _ "And my Aadhaar?" H1 H2 H3 H4 eq_refl)).
Defined.
